(** * Normalisation of a Jaeger instance

    A shallow embedding of [pkg/strategy/controller.go]: the [normalize]
    pipeline that fills in defaults on a [v1.Jaeger] object and removes
    incompatible options, together with the helpers it calls.

    Conventions of the embedding.
    - Go strings are byte strings: [string] of the standard library.
    - A [*bool] or [*int] is an [option]; [nil] is [None].
    - A Go [map[string]T] is a [gmap string T]; reading a missing key of a
      [map[string]string] yields the empty string ([index]).
    - The object is mutated in place by the Go code; here every function
      returns the updated record.
    - Logging and tracing spans only report; they are left out. *)

From Stdlib Require Import Ascii String NArith ZArith Lia.
From stdpp Require Import gmap strings list fin_maps.

#[local] Set Warnings "-register-all".
#[local] Open Scope string_scope.

(** ** Bytes and strings *)

Definition DQ : ascii := "034"%char.   (* the double quote *)
Definition BSL : ascii := "092"%char.  (* the backslash *)
Definition LF : string := String "010" "".
Definition TAB : string := String "009" "".

Definition byte (c : ascii) : N := N_of_ascii c.
Definition chr (n : N) : ascii := ascii_of_N n.
Definition eqc (c d : ascii) : bool := Ascii.eqb c d.
Definition between (lo hi : N) (c : ascii) : bool :=
  (lo <=? byte c)%N && (byte c <=? hi)%N.

(** [m[k]] on a [map[string]string]: the zero value for a missing key. *)
Definition index (m : gmap string string) (k : string) : string :=
  default "" (m !! k).

(** ** Dynamically typed values

    What [interface{}] holds after [encoding/json] has decoded into it:
    [nil], [bool], a number, [string], [[]interface{}] or
    [map[string]interface{}].  A number is a [float64]; it is kept here as
    the literal it was read from. *)
Inductive value : Type :=
| VNull
| VBool (b : bool)
| VNumber (lit : string)
| VString (s : string)
| VArray (l : list value)
| VMap (m : gmap string value).

(** ** [encoding/json]: decoding

    The decoder of the Go library, in two layers: a scanner that walks the
    input byte by byte (the states of [scanner.go]) and cuts it into tokens,
    string tokens already unquoted, and a recursive descent over the tokens
    that builds the value. *)

Definition isSpace (c : ascii) : bool :=
  eqc c " " || eqc c "009" || eqc c "013" || eqc c "010".
Definition isDigit (c : ascii) : bool := between 48 57 c.

Definition hexval (c : ascii) : option N :=
  if isDigit c then Some (byte c - 48)%N
  else if between 97 102 c then Some (byte c - 87)%N
  else if between 65 70 c then Some (byte c - 55)%N
  else None.
Definition isHex (c : ascii) : bool := bool_decide (is_Some (hexval c)).

(** [getu4]: the rune of the four hex digits of a [\uXXXX] escape. *)
Definition getu4 (a b c d : ascii) : option N :=
  match hexval a, hexval b, hexval c, hexval d with
  | Some x, Some y, Some z, Some w => Some (((x * 16 + y) * 16 + z) * 16 + w)%N
  | _, _, _, _ => None
  end.

Definition RuneError : N := 65533%N.
Definition IsSurrogate (r : N) : bool := (55296 <=? r)%N && (r <? 57344)%N.

(** [utf8.EncodeRune]; surrogates and runes past U+10FFFF become U+FFFD. *)
Definition EncodeRune (r : N) : string :=
  let r := if IsSurrogate r || (1114111 <? r)%N then RuneError else r in
  if (r <? 128)%N then String (chr r) ""
  else if (r <? 2048)%N then
    String (chr (192 + r / 64)) (String (chr (128 + r mod 64)) "")
  else if (r <? 65536)%N then
    String (chr (224 + r / 4096))
      (String (chr (128 + (r / 64) mod 64)) (String (chr (128 + r mod 64)) ""))
  else
    String (chr (240 + r / 262144))
      (String (chr (128 + (r / 4096) mod 64))
         (String (chr (128 + (r / 64) mod 64))
            (String (chr (128 + r mod 64)) ""))).

(** [utf16.DecodeRune]: a surrogate pair, or U+FFFD when it is not one. *)
Definition DecodeRune16 (r1 r2 : N) : N :=
  if (55296 <=? r1)%N && (r1 <? 56320)%N
     && (56320 <=? r2)%N && (r2 <? 57344)%N
  then ((r1 - 55296) * 1024 + (r2 - 56320) + 65536)%N
  else RuneError.

Definition cont : ascii -> bool := between 128 191.

Definition emit (p : string) (o : option string) : option string :=
  match o with Some s => Some (p +:+ s) | None => None end.

(** [unquote]: the text of a string literal, given the bytes between its
    quotes.  Escapes are replaced, a [\u] escape by the UTF-8 encoding of
    its rune (two escapes forming a surrogate pair by one rune), and bytes
    that are not well-formed UTF-8 are each replaced by U+FFFD.  A
    well-formed multi-byte sequence is copied as it is. *)
Fixpoint unquote (s : string) : option string :=
  match s with
  | EmptyString => Some ""
  | String c r =>
      if eqc c BSL then
        match r with
        | String e r1 =>
            if eqc e DQ || eqc e BSL || eqc e "/" then emit (String e "") (unquote r1)
            else if eqc e "b" then emit (String "008" "") (unquote r1)
            else if eqc e "f" then emit (String "012" "") (unquote r1)
            else if eqc e "n" then emit (String "010" "") (unquote r1)
            else if eqc e "r" then emit (String "013" "") (unquote r1)
            else if eqc e "t" then emit (String "009" "") (unquote r1)
            else if eqc e "u" then
              match r1 with
              | String h1 (String h2 (String h3 (String h4 r5))) =>
                  match getu4 h1 h2 h3 h4 with
                  | Some rr =>
                      if IsSurrogate rr then
                        let lone := emit (EncodeRune RuneError) (unquote r5) in
                        match r5 with
                        | String b' (String u' (String k1 (String k2
                            (String k3 (String k4 r11))))) =>
                            if eqc b' BSL && eqc u' "u" then
                              match getu4 k1 k2 k3 k4 with
                              | Some rr1 =>
                                  if (DecodeRune16 rr rr1 =? RuneError)%N then lone
                                  else emit (EncodeRune (DecodeRune16 rr rr1))
                                            (unquote r11)
                              | None => lone
                              end
                            else lone
                        | _ => lone
                        end
                      else emit (EncodeRune rr) (unquote r5)
                  | None => None
                  end
              | _ => None
              end
            else None
        | EmptyString => None
        end
      else if eqc c DQ || (byte c <? 32)%N then None
      else if (byte c <? 128)%N then emit (String c "") (unquote r)
      else
        let bad := emit (EncodeRune RuneError) (unquote r) in
        let two :=
          match r with
          | String c2 r2 =>
              if cont c2 then emit (String c (String c2 "")) (unquote r2)
              else bad
          | _ => bad
          end in
        let three lo hi :=
          match r with
          | String c2 (String c3 r3) =>
              if between lo hi c2 && cont c3
              then emit (String c (String c2 (String c3 ""))) (unquote r3)
              else bad
          | _ => bad
          end in
        let four lo hi :=
          match r with
          | String c2 (String c3 (String c4 r4)) =>
              if between lo hi c2 && cont c3 && cont c4
              then emit (String c (String c2 (String c3 (String c4 ""))))
                        (unquote r4)
              else bad
          | _ => bad
          end in
        if between 194 223 c then two
        else if eqc c "224" then three 160%N 191%N
        else if eqc c "237" then three 128%N 159%N
        else if between 225 239 c then three 128%N 191%N
        else if eqc c "240" then four 144%N 191%N
        else if between 241 243 c then four 128%N 191%N
        else if eqc c "244" then four 128%N 143%N
        else bad
  end.

Inductive token :=
| TLBrace | TRBrace | TLBrack | TRBrack | TColon | TComma
| TStr (s : string) | TNum (lit : string) | TTrue | TFalse | TNull.

(** The scanner states inside a number: after the sign, after a leading
    zero, among the integer digits, after the point, among the fraction
    digits, after the exponent mark, after its sign, among its digits. *)
Inductive numstate := NNeg | N0 | N1 | NDot | NDot0 | NE | NESign | NE0.

Inductive lstate :=
| LTop                                   (* between tokens *)
| LStr (acc : list ascii)                (* in a string; [acc] is reversed *)
| LStrEsc (acc : list ascii)             (* after a backslash *)
| LStrU (n : nat) (acc : list ascii)     (* [n] hex digits still to come *)
| LNum (st : numstate) (acc : list ascii)
| LLit (rest : string) (tok : token).    (* letters of a literal to come *)

Definition text (acc : list ascii) : string := string_of_list_ascii (rev acc).

Definition stepTop (c : ascii) (toks : list token) : option (lstate * list token) :=
  if isSpace c then Some (LTop, toks)
  else if eqc c "{" then Some (LTop, TLBrace :: toks)
  else if eqc c "}" then Some (LTop, TRBrace :: toks)
  else if eqc c "[" then Some (LTop, TLBrack :: toks)
  else if eqc c "]" then Some (LTop, TRBrack :: toks)
  else if eqc c ":" then Some (LTop, TColon :: toks)
  else if eqc c "," then Some (LTop, TComma :: toks)
  else if eqc c DQ then Some (LStr [], toks)
  else if eqc c "-" then Some (LNum NNeg [c], toks)
  else if eqc c "0" then Some (LNum N0 [c], toks)
  else if isDigit c then Some (LNum N1 [c], toks)
  else if eqc c "t" then Some (LLit "rue" TTrue, toks)
  else if eqc c "f" then Some (LLit "alse" TFalse, toks)
  else if eqc c "n" then Some (LLit "ull" TNull, toks)
  else None.

Definition numEnd (st : numstate) : bool :=
  match st with N0 | N1 | NDot0 | NE0 => true | _ => false end.

(** The next state inside a number, [None] when [c] does not continue it. *)
Definition stepNum (st : numstate) (c : ascii) : option numstate :=
  let expo := if eqc c "e" || eqc c "E" then Some NE else None in
  let frac := if eqc c "." then Some NDot else expo in
  match st with
  | NNeg => if eqc c "0" then Some N0 else if isDigit c then Some N1 else None
  | N0 => frac
  | N1 => if isDigit c then Some N1 else frac
  | NDot => if isDigit c then Some NDot0 else None
  | NDot0 => if isDigit c then Some NDot0 else expo
  | NE => if eqc c "+" || eqc c "-" then Some NESign
          else if isDigit c then Some NE0 else None
  | NESign | NE0 => if isDigit c then Some NE0 else None
  end.

(** One byte of input; [None] is a syntax error.  Tokens are collected in
    reverse. *)
Definition lstep (st : lstate) (c : ascii) (toks : list token)
  : option (lstate * list token) :=
  match st with
  | LTop => stepTop c toks
  | LStr acc =>
      if eqc c DQ then
        match unquote (text acc) with
        | Some s => Some (LTop, TStr s :: toks)
        | None => None
        end
      else if eqc c BSL then Some (LStrEsc (c :: acc), toks)
      else if (byte c <? 32)%N then None
      else Some (LStr (c :: acc), toks)
  | LStrEsc acc =>
      if eqc c "b" || eqc c "f" || eqc c "n" || eqc c "r" || eqc c "t"
         || eqc c BSL || eqc c "/" || eqc c DQ
      then Some (LStr (c :: acc), toks)
      else if eqc c "u" then Some (LStrU 4 (c :: acc), toks)
      else None
  | LStrU n acc =>
      if isHex c then
        match n with
        | S (S k) => Some (LStrU (S k) (c :: acc), toks)
        | _ => Some (LStr (c :: acc), toks)
        end
      else None
  | LNum ns acc =>
      match stepNum ns c with
      | Some ns' => Some (LNum ns' (c :: acc), toks)
      | None => if numEnd ns then stepTop c (TNum (text acc) :: toks) else None
      end
  | LLit rest tok =>
      match rest with
      | String e rest' =>
          if eqc c e then
            match rest' with
            | EmptyString => Some (LTop, tok :: toks)
            | _ => Some (LLit rest' tok, toks)
            end
          else None
      | EmptyString => None
      end
  end.

Fixpoint scan (s : string) (st : lstate) (toks : list token)
  : option (lstate * list token) :=
  match s with
  | EmptyString => Some (st, toks)
  | String c s' =>
      match lstep st c toks with
      | Some (st', toks') => scan s' st' toks'
      | None => None
      end
  end.

(** End of input: only between tokens, or at the end of a number. *)
Definition scanEOF (st : lstate) (toks : list token) : option (list token) :=
  match st with
  | LTop => Some (rev toks)
  | LNum ns acc => if numEnd ns then Some (rev (TNum (text acc) :: toks)) else None
  | _ => None
  end.

Definition tokens (data : string) : option (list token) :=
  match scan data LTop [] with
  | Some (st, toks) => scanEOF st toks
  | None => None
  end.

(** The digits at the head of [s] as a number, after [acc]. *)
Fixpoint digits (s : string) (acc : N) : N :=
  match s with
  | String c r => if isDigit c then digits r (acc * 10 + (byte c - 48))%N else acc
  | EmptyString => acc
  end.

(** The digits of a number literal before its exponent mark, read as one
    integer [m]; the literal without its exponent is [m * 10 ^ scale].  The
    third component is what follows the exponent mark. *)
Fixpoint mantissa (s : string) (m : N) (point : bool) (scale : Z)
  : N * Z * string :=
  match s with
  | EmptyString => (m, scale, "")
  | String c r =>
      if isDigit c then
        mantissa r (m * 10 + (byte c - 48))%N point
                 (if point then scale - 1 else scale)%Z
      else if eqc c "." then mantissa r m true scale
      else if eqc c "-" then mantissa r m point scale
      else (m, scale, r)
  end.

Definition exponent (s : string) : Z :=
  match s with
  | String c r =>
      if eqc c "-" then (- Z.of_N (digits r 0))%Z
      else if eqc c "+" then Z.of_N (digits r 0)
      else Z.of_N (digits s 0)
  | EmptyString => 0%Z
  end.

(** Whether [strconv.ParseFloat(lit, 64)] fails with a range error: the
    magnitude of the literal is at or past [2^1024 - 2^970], halfway between
    the largest [float64] and [2^1024], where rounding to the nearest
    [float64] leaves the finite ones.  A magnitude too small for a
    [float64] is no error.  The powers of ten are taken only where the
    answer is not clear from the exponent. *)
Definition outOfRange (lit : string) : bool :=
  let '(m, scale, e) := mantissa lit 0 false 0 in
  let m := Z.of_N m in
  let scale := (scale + exponent e)%Z in
  let top := (2 ^ 1024 - 2 ^ 970)%Z in
  if (m =? 0)%Z then false
  else if (400 <=? scale)%Z then true
  else if (0 <=? scale)%Z then (top <=? m * 10 ^ scale)%Z
  else if (Z.log2 m + 1 <? - scale)%Z then false     (* below one *)
  else (top * 10 ^ (- scale) <=? m)%Z.

(** [convertNumber]: a literal out of the range of [float64] gives [nil]
    and an error that is saved for the end, where the caller drops it;
    decoding goes on. *)
Definition convertNumber (lit : string) : value :=
  if outOfRange lit then VNull else VNumber lit.

Definition maxNestingDepth : N := 10000%N.

(** The value at the head of the tokens and the tokens after it.  Every
    call consumes a token before it calls again, or is followed by one that
    does, so twice the number of tokens is fuel enough.  [depth] counts the
    arrays and objects that are open; opening one more than
    [maxNestingDepth] is a syntax error.  A repeated key of an object keeps
    its last value. *)
Fixpoint parseValue (fuel : nat) (depth : N) (ts : list token)
  : option (value * list token) :=
  match fuel with
  | O => None
  | S fuel =>
      match ts with
      | TNull :: r => Some (VNull, r)
      | TTrue :: r => Some (VBool true, r)
      | TFalse :: r => Some (VBool false, r)
      | TNum lit :: r => Some (convertNumber lit, r)
      | TStr s :: r => Some (VString s, r)
      | TLBrack :: r =>
          if (maxNestingDepth <=? depth)%N then None
          else
            match r with
            | TRBrack :: r' => Some (VArray [], r')
            | _ => parseArray fuel (depth + 1)%N r []
            end
      | TLBrace :: r =>
          if (maxNestingDepth <=? depth)%N then None
          else
            match r with
            | TRBrace :: r' => Some (VMap ∅, r')
            | _ => parseObject fuel (depth + 1)%N r ∅
            end
      | _ => None
      end
  end
with parseArray (fuel : nat) (depth : N) (ts : list token) (acc : list value)
  : option (value * list token) :=
  match fuel with
  | O => None
  | S fuel =>
      match parseValue fuel depth ts with
      | Some (v, TComma :: r) => parseArray fuel depth r (v :: acc)
      | Some (v, TRBrack :: r) => Some (VArray (rev (v :: acc)), r)
      | _ => None
      end
  end
with parseObject (fuel : nat) (depth : N) (ts : list token)
                 (m : gmap string value)
  : option (value * list token) :=
  match fuel with
  | O => None
  | S fuel =>
      match ts with
      | TStr k :: TColon :: r =>
          match parseValue fuel depth r with
          | Some (v, TComma :: r') => parseObject fuel depth r' (<[k := v]> m)
          | Some (v, TRBrace :: r') => Some (VMap (<[k := v]> m), r')
          | _ => None
          end
      | _ => None
      end
  end.

(** A whole document: one value and nothing after it. *)
Definition decode (data : string) : option value :=
  match tokens data with
  | Some ts =>
      match parseValue (2 * length ts + 2) 0 ts with
      | Some (v, []) => Some v
      | _ => None
      end
  | None => None
  end.

(** [json.Unmarshal(data, &v)] for [v] a [[]interface{}]: an array replaces
    the elements of [v]; on a syntax error, or a document of another type,
    [v] is left as it was.  (A document [null] would make [v] the nil
    slice; the one caller passes a text that begins with a bracket.)  The
    error result is what the caller drops. *)
Definition Unmarshal (data : string) (v : list value) : list value :=
  match decode data with
  | Some (VArray l) => l
  | _ => v
  end.

(** ** [strings.EqualFold]

    [strings.EqualFold s t] reads one rune off each string in turn, until
    one of them is used up, and has the two runes agree under simple case
    folding; it holds when both strings end together.  Here the strings are
    cut into their runes first ([runes]) and the runes are compared pair by
    pair ([foldRunes]); the comparison of one pair ([foldRune]) is the body
    of the loop.  The folding table [unicode.SimpleFold] belongs to the Go
    library; it is an argument here, and a field of [Externals] below. *)

Definition RuneSelf : N := 128%N.

(** [utf8.DecodeRuneInString], along the whole string: a byte below
    [RuneSelf] is its own rune, a well-formed sequence of two to four bytes
    is the rune it encodes, and any other byte is U+FFFD, of width one. *)
Fixpoint runes (s : string) : list N :=
  match s with
  | EmptyString => []
  | String c r =>
      if (byte c <? RuneSelf)%N then byte c :: runes r
      else
        let bad := RuneError :: runes r in
        let two :=
          match r with
          | String c2 r2 =>
              if cont c2
              then ((byte c - 192) * 64 + (byte c2 - 128))%N :: runes r2
              else bad
          | _ => bad
          end in
        let three lo hi :=
          match r with
          | String c2 (String c3 r3) =>
              if between lo hi c2 && cont c3
              then ((byte c - 224) * 4096 + (byte c2 - 128) * 64
                    + (byte c3 - 128))%N :: runes r3
              else bad
          | _ => bad
          end in
        let four lo hi :=
          match r with
          | String c2 (String c3 (String c4 r4)) =>
              if between lo hi c2 && cont c3 && cont c4
              then ((byte c - 240) * 262144 + (byte c2 - 128) * 4096
                    + (byte c3 - 128) * 64 + (byte c4 - 128))%N :: runes r4
              else bad
          | _ => bad
          end in
        if between 194 223 c then two
        else if eqc c "224" then three 160%N 191%N
        else if eqc c "237" then three 128%N 159%N
        else if between 225 239 c then three 128%N 191%N
        else if eqc c "240" then four 144%N 191%N
        else if between 241 243 c then four 128%N 191%N
        else if eqc c "244" then four 128%N 143%N
        else bad
  end.

Section Folding.

(** [unicode.SimpleFold]: the next rune of the folding orbit of a rune, the
    smallest one after the largest. *)
Variable SimpleFold : N -> N.

(** [for r != sr && r < tr { r = unicode.SimpleFold(r) }], the value of [r]
    when the loop is left.  The runes that a run of the loop passes are
    below [tr] and, when the run ends, different from each other, so a run
    that ends does so within [tr] rounds; [fuel] is one more than that. *)
Fixpoint orbit (fuel : nat) (sr tr r : N) : N :=
  match fuel with
  | O => r
  | S fuel =>
      if negb (r =? sr)%N && (r <? tr)%N
      then orbit fuel sr tr (SimpleFold r)
      else r
  end.

(** One round of the loop of [EqualFold]: whether the runes [sr] and [tr]
    let the comparison go on. *)
Definition foldRune (sr tr : N) : bool :=
  (* easy case *)
  if (tr =? sr)%N then true
  else
    (* make sr < tr to simplify what follows *)
    let '(sr, tr) := if (tr <? sr)%N then (tr, sr) else (sr, tr) in
    if (tr <? RuneSelf)%N then
      (* ASCII only: sr/tr must be upper/lower case *)
      (65 <=? sr)%N && (sr <=? 90)%N && (tr =? sr + 32)%N
    else
      (* general case: SimpleFold(x) returns the next equivalent rune > x
         or wraps around to smaller values *)
      (orbit (S (N.to_nat tr)) sr tr (SimpleFold sr) =? tr)%N.

Fixpoint foldRunes (rs rt : list N) : bool :=
  match rs, rt with
  | [], [] => true
  | sr :: rs', tr :: rt' => foldRune sr tr && foldRunes rs' rt'
  | _, _ => false
  end.

Definition equalFold (s t : string) : bool := foldRunes (runes s) (runes t).

End Folding.

(** ** [fmt.Sprintf] and the menu template of [enableLogOut]

    The format string of [enableLogOut] has one verb, [%s]; [Sprintf] with
    one string argument puts the argument between the text before the verb
    and the text after it, unchanged.  In [menuPre] and [menuPost] the raw
    string literal of the source is written line by line, with [q] turning
    each apostrophe into a double quote. *)

Definition q (s : string) : string :=
  string_of_list_ascii
    (map (fun c => if eqc c "'" then DQ else c) (list_ascii_of_string s)).

Definition Sprintf (pre post arg : string) : string := pre +:+ arg +:+ post.

Definition menuPre : string :=
  "[" +:+ LF +:+
  TAB +:+ TAB +:+ "{" +:+ LF +:+
  TAB +:+ TAB +:+ q "  'label': 'About'," +:+ LF +:+
  TAB +:+ TAB +:+ q "  'items': [" +:+ LF +:+
  TAB +:+ TAB +:+ TAB +:+ "{" +:+ LF +:+
  TAB +:+ TAB +:+ TAB +:+ q "  'label': 'Documentation'," +:+ LF +:+
  TAB +:+ TAB +:+ TAB +:+ q "  'url': '".

Definition menuPost : string :=
  q "'" +:+ LF +:+
  TAB +:+ TAB +:+ TAB +:+ "}" +:+ LF +:+
  TAB +:+ TAB +:+ "  ]" +:+ LF +:+
  TAB +:+ TAB +:+ "}," +:+ LF +:+
  TAB +:+ TAB +:+ "{" +:+ LF +:+
  TAB +:+ TAB +:+ q "  'label': 'Log Out'," +:+ LF +:+
  TAB +:+ TAB +:+ q "  'url': '/oauth/sign_in'," +:+ LF +:+
  TAB +:+ TAB +:+ q "  'anchorTarget': '_self'" +:+ LF +:+
  TAB +:+ TAB +:+ "}" +:+ LF +:+
  TAB +:+ "  ]".

(** ** The data model of package [v1] *)

(** Modelled from the spec: the type [v1.FreeForm] of the UI options is
    declared outside the sources at hand.  The spec describes a free-form,
    arbitrarily nested string-keyed option table that is loaded from the
    user's options, or is empty when there are none or they are malformed.
    So a [FreeForm] is nothing, a document that does not decode to a table,
    or a table of decoded values; re-encoding a table ([NewFreeForm]) and
    loading it again ([GetMap]) gives the table back. *)
Inductive FreeForm :=
| FreeFormNone
| FreeFormMalformed (raw : string)
| FreeFormTable (m : gmap string value).

Definition IsEmpty (o : FreeForm) : bool :=
  match o with
  | FreeFormNone => true
  | FreeFormMalformed _ => false
  | FreeFormTable m => bool_decide (m = ∅)
  end.

Definition GetMap (o : FreeForm) : option (gmap string value) :=
  match o with
  | FreeFormNone => Some ∅
  | FreeFormMalformed _ => None
  | FreeFormTable m => Some m
  end.

Definition NewFreeForm (m : gmap string value) : FreeForm := FreeFormTable m.

(** [resource.Quantity], by its text; [corev1.ResourceList] maps a resource
    name to a quantity. *)
Definition Quantity : Type := string.
Definition MustParse (s : string) : Quantity := s.
Definition ResourceMemory : string := "memory".
Definition ResourceCPU : string := "cpu".

Record ResourceRequirements := {
  Limits : gmap string Quantity;
  Requests : gmap string Quantity
}.

(** Modelled from the spec: the structs of [v1] and [esv1] are declared
    outside the sources at hand.  Each record below has the fields that
    [controller.go] reads or writes, with the types its comparisons and
    assignments give them (section 3 of the spec lists the same
    subsections).  A field name that several Go structs share carries the
    name of its struct. *)
Record JaegerDependenciesSpec := {
  DependenciesEnabled : option bool;
  DependenciesImage : string;
  DependenciesSchedule : string
}.

Record JaegerEsIndexCleanerSpec := {
  IndexCleanerEnabled : option bool;
  IndexCleanerNumberOfDays : option Z;
  IndexCleanerSchedule : string;
  IndexCleanerImage : string
}.

Record JaegerEsRolloverSpec := {
  RolloverImage : string;
  RolloverSchedule : string
}.

Record ElasticsearchSpec := {
  NodeCount : Z;
  RedundancyPolicy : string;
  Resources : option ResourceRequirements
}.

Record JaegerStorageSpec := {
  Type_ : string;
  Options : gmap string string;       (* [Options.Map()] *)
  Dependencies : JaegerDependenciesSpec;
  EsIndexCleaner : JaegerEsIndexCleanerSpec;
  EsRollover : JaegerEsRolloverSpec;
  Elasticsearch : ElasticsearchSpec
}.

Record JaegerIngressSpec := {
  IngressEnabled : option bool;
  Security : string
}.

Record JaegerUISpec := {
  UIOptions : FreeForm
}.

Record JaegerSpec := {
  Strategy : string;
  UI : JaegerUISpec;
  Storage : JaegerStorageSpec;
  Ingress : JaegerIngressSpec
}.

Record Jaeger := {
  Name : string;
  Spec : JaegerSpec
}.

(** Assignments to one field. *)
Definition set_DependenciesEnabled v (d : JaegerDependenciesSpec) :=
  {| DependenciesEnabled := v; DependenciesImage := d.(DependenciesImage);
     DependenciesSchedule := d.(DependenciesSchedule) |}.
Definition set_DependenciesImage v (d : JaegerDependenciesSpec) :=
  {| DependenciesEnabled := d.(DependenciesEnabled); DependenciesImage := v;
     DependenciesSchedule := d.(DependenciesSchedule) |}.
Definition set_DependenciesSchedule v (d : JaegerDependenciesSpec) :=
  {| DependenciesEnabled := d.(DependenciesEnabled);
     DependenciesImage := d.(DependenciesImage); DependenciesSchedule := v |}.

Definition set_IndexCleanerEnabled v (c : JaegerEsIndexCleanerSpec) :=
  {| IndexCleanerEnabled := v;
     IndexCleanerNumberOfDays := c.(IndexCleanerNumberOfDays);
     IndexCleanerSchedule := c.(IndexCleanerSchedule);
     IndexCleanerImage := c.(IndexCleanerImage) |}.
Definition set_IndexCleanerNumberOfDays v (c : JaegerEsIndexCleanerSpec) :=
  {| IndexCleanerEnabled := c.(IndexCleanerEnabled);
     IndexCleanerNumberOfDays := v;
     IndexCleanerSchedule := c.(IndexCleanerSchedule);
     IndexCleanerImage := c.(IndexCleanerImage) |}.
Definition set_IndexCleanerSchedule v (c : JaegerEsIndexCleanerSpec) :=
  {| IndexCleanerEnabled := c.(IndexCleanerEnabled);
     IndexCleanerNumberOfDays := c.(IndexCleanerNumberOfDays);
     IndexCleanerSchedule := v;
     IndexCleanerImage := c.(IndexCleanerImage) |}.
Definition set_IndexCleanerImage v (c : JaegerEsIndexCleanerSpec) :=
  {| IndexCleanerEnabled := c.(IndexCleanerEnabled);
     IndexCleanerNumberOfDays := c.(IndexCleanerNumberOfDays);
     IndexCleanerSchedule := c.(IndexCleanerSchedule);
     IndexCleanerImage := v |}.

Definition set_RolloverImage v (r : JaegerEsRolloverSpec) :=
  {| RolloverImage := v; RolloverSchedule := r.(RolloverSchedule) |}.
Definition set_RolloverSchedule v (r : JaegerEsRolloverSpec) :=
  {| RolloverImage := r.(RolloverImage); RolloverSchedule := v |}.

Definition set_NodeCount v (e : ElasticsearchSpec) :=
  {| NodeCount := v; RedundancyPolicy := e.(RedundancyPolicy);
     Resources := e.(Resources) |}.
Definition set_RedundancyPolicy v (e : ElasticsearchSpec) :=
  {| NodeCount := e.(NodeCount); RedundancyPolicy := v;
     Resources := e.(Resources) |}.
Definition set_Resources v (e : ElasticsearchSpec) :=
  {| NodeCount := e.(NodeCount); RedundancyPolicy := e.(RedundancyPolicy);
     Resources := v |}.

Definition set_Type v (s : JaegerStorageSpec) :=
  {| Type_ := v; Options := s.(Options); Dependencies := s.(Dependencies);
     EsIndexCleaner := s.(EsIndexCleaner); EsRollover := s.(EsRollover);
     Elasticsearch := s.(Elasticsearch) |}.
Definition set_Dependencies v (s : JaegerStorageSpec) :=
  {| Type_ := s.(Type_); Options := s.(Options); Dependencies := v;
     EsIndexCleaner := s.(EsIndexCleaner); EsRollover := s.(EsRollover);
     Elasticsearch := s.(Elasticsearch) |}.
Definition set_EsIndexCleaner v (s : JaegerStorageSpec) :=
  {| Type_ := s.(Type_); Options := s.(Options); Dependencies := s.(Dependencies);
     EsIndexCleaner := v; EsRollover := s.(EsRollover);
     Elasticsearch := s.(Elasticsearch) |}.
Definition set_EsRollover v (s : JaegerStorageSpec) :=
  {| Type_ := s.(Type_); Options := s.(Options); Dependencies := s.(Dependencies);
     EsIndexCleaner := s.(EsIndexCleaner); EsRollover := v;
     Elasticsearch := s.(Elasticsearch) |}.
Definition set_Elasticsearch v (s : JaegerStorageSpec) :=
  {| Type_ := s.(Type_); Options := s.(Options); Dependencies := s.(Dependencies);
     EsIndexCleaner := s.(EsIndexCleaner); EsRollover := s.(EsRollover);
     Elasticsearch := v |}.

Definition set_Security v (i : JaegerIngressSpec) :=
  {| IngressEnabled := i.(IngressEnabled); Security := v |}.

Definition set_Strategy v (s : JaegerSpec) :=
  {| Strategy := v; UI := s.(UI); Storage := s.(Storage); Ingress := s.(Ingress) |}.
Definition set_UI v (s : JaegerSpec) :=
  {| Strategy := s.(Strategy); UI := v; Storage := s.(Storage);
     Ingress := s.(Ingress) |}.
Definition set_Storage v (s : JaegerSpec) :=
  {| Strategy := s.(Strategy); UI := s.(UI); Storage := v; Ingress := s.(Ingress) |}.
Definition set_Ingress v (s : JaegerSpec) :=
  {| Strategy := s.(Strategy); UI := s.(UI); Storage := s.(Storage); Ingress := v |}.

Definition set_Name v (j : Jaeger) := {| Name := v; Spec := j.(Spec) |}.
Definition set_Spec v (j : Jaeger) := {| Name := j.(Name); Spec := v |}.

(** ** What the file takes from other packages

    The constants of [v1] and [esv1], the process configuration read
    through [viper.GetString], the helpers of the packages [storage],
    [cronjob] and [util], and the case-folding table of the Go library are
    declared outside the sources at hand.  They are the fields of one
    environment, fixed during a call. *)
Class Externals := {
  DeploymentStrategyAllInOne : string;
  DeploymentStrategyProduction : string;
  DeploymentStrategyStreaming : string;
  IngressSecurityNoneExplicit : string;
  IngressSecurityOAuthProxy : string;
  FlagPlatformOpenShift : string;
  ZeroRedundancy : string;
  SingleRedundancy : string;
  (** [viper.GetString]: the process configuration, by key *)
  GetString : string -> string;
  (** [storage.ValidTypes()]: the storage catalog *)
  ValidTypes : list string;
  (** [storage.ShouldDeployElasticsearch] *)
  ShouldDeployElasticsearch : JaegerStorageSpec -> bool;
  (** [cronjob.SupportedStorage] *)
  SupportedStorage : string -> bool;
  (** [util.ImageName image param] *)
  ImageName : string -> string -> string;
  (** [unicode.SimpleFold]: the folding orbits of the Unicode tables *)
  SimpleFold : N -> N
}.

(** [strings.EqualFold], with the folding table of the environment. *)
Definition EqualFold `{E : Externals} (s t : string) : bool :=
  equalFold SimpleFold s t.

(** ** [controller.go] *)

Section Controller.
Context `{E : Externals}.

Definition defaultEsMemory : Quantity := MustParse "16Gi".
Definition defaultEsCPURequest : Quantity := MustParse "1".

(** The loop of [unknownStorage] over the catalog. *)
Fixpoint unknownStorageIn (typ : string) (ks : list string) : bool :=
  match ks with
  | [] => true
  | k :: ks' => if EqualFold typ k then false else unknownStorageIn typ ks'
  end.

Definition unknownStorage (typ : string) : bool :=
  unknownStorageIn typ ValidTypes.

Definition distributedStorage (storage : string) : bool :=
  negb (EqualFold storage "memory") && negb (EqualFold storage "badger").

Definition normalizeSparkDependencies (spec : JaegerStorageSpec)
  : JaegerStorageSpec :=
  let sFlagsMap := spec.(Options) in
  let tlsEnabled := index sFlagsMap "es.tls" in
  let tlsSkipHost := index sFlagsMap "es.tls.skip-host-verify" in
  let tlsCa := index sFlagsMap "es.tls.ca" in
  let tlsIsNotEnabled :=
    negb (EqualFold tlsEnabled "true")
    && negb (EqualFold tlsSkipHost "true")
    && EqualFold tlsCa "" in
  (* auto enable only for supported storages *)
  let spec :=
    if SupportedStorage spec.(Type_)
       && bool_decide (spec.(Dependencies).(DependenciesEnabled) = None)
       && negb (ShouldDeployElasticsearch spec)
       && tlsIsNotEnabled
    then set_Dependencies
           (set_DependenciesEnabled (Some true) spec.(Dependencies)) spec
    else spec in
  let spec :=
    if bool_decide (spec.(Dependencies).(DependenciesImage) = "")
    then set_Dependencies
           (set_DependenciesImage (GetString "jaeger-spark-dependencies-image")
              spec.(Dependencies)) spec
    else spec in
  if bool_decide (spec.(Dependencies).(DependenciesSchedule) = "")
  then set_Dependencies
         (set_DependenciesSchedule "55 23 * * *" spec.(Dependencies)) spec
  else spec.

Definition normalizeIndexCleaner (spec : JaegerEsIndexCleanerSpec)
  (storage : string) : JaegerEsIndexCleanerSpec :=
  (* auto enable only for supported storages *)
  let spec :=
    if bool_decide (storage = "elasticsearch")
       && bool_decide (spec.(IndexCleanerEnabled) = None)
    then set_IndexCleanerEnabled (Some true) spec
    else spec in
  let spec :=
    set_IndexCleanerImage
      (ImageName spec.(IndexCleanerImage) "jaeger-es-index-cleaner-image") spec in
  let spec :=
    if bool_decide (spec.(IndexCleanerSchedule) = "")
    then set_IndexCleanerSchedule "55 23 * * *" spec
    else spec in
  if bool_decide (spec.(IndexCleanerNumberOfDays) = None)
  then set_IndexCleanerNumberOfDays (Some 7%Z) spec
  else spec.

Definition normalizeElasticsearch (spec : ElasticsearchSpec) : ElasticsearchSpec :=
  let spec :=
    if bool_decide (spec.(NodeCount) = 0%Z) then set_NodeCount 3%Z spec else spec in
  let spec :=
    if bool_decide (spec.(RedundancyPolicy) = "") then
      if bool_decide (spec.(NodeCount) = 1%Z)
      then set_RedundancyPolicy ZeroRedundancy spec
      else set_RedundancyPolicy SingleRedundancy spec
    else spec in
  if bool_decide (spec.(Resources) = None) then
    set_Resources
      (Some {| Limits := {[ ResourceMemory := defaultEsMemory ]};
               Requests := <[ ResourceCPU := defaultEsCPURequest ]>
                             {[ ResourceMemory := defaultEsMemory ]} |})
      spec
  else spec.

Definition normalizeRollover (spec : JaegerEsRolloverSpec) : JaegerEsRolloverSpec :=
  let spec :=
    set_RolloverImage
      (ImageName spec.(RolloverImage) "jaeger-es-rollover-image") spec in
  if bool_decide (spec.(RolloverSchedule) = "")
  then set_RolloverSchedule "*/30 * * * *" spec
  else spec.

Definition enableArchiveButton (uiOpts : gmap string value)
  (sOpts : gmap string string) : gmap string value :=
  (* respect explicit settings *)
  match uiOpts !! "archiveEnabled" with
  | Some _ => uiOpts
  | None =>
      (* archive tab is by default disabled *)
      if EqualFold (index sOpts "es-archive.enabled") "true"
         || EqualFold (index sOpts "cassandra-archive.enabled") "true"
      then <["archiveEnabled" := VBool true]> uiOpts
      else uiOpts
  end.

(** The nested table [deps] is the very map stored under [dependencies]
    when there is one, so writing [menuEnabled] into it and storing it back
    is one insertion into that table. *)
Definition disableDependenciesTab (uiOpts : gmap string value)
  (storage : string) (depsEnabled : option bool) : gmap string value :=
  (* dependency tab is by default enabled and memory storage support it *)
  if EqualFold storage "memory" || bool_decide (depsEnabled = Some true)
  then uiOpts
  else
    let write deps :=
      (* respect explicit settings *)
      match deps !! "menuEnabled" with
      | Some _ => uiOpts
      | None =>
          <["dependencies" := VMap (<["menuEnabled" := VBool false]> deps)]> uiOpts
      end in
    match uiOpts !! "dependencies" with
    | Some (VMap val) => write val
    | Some _ => uiOpts            (* we return as the type does not match *)
    | None => write ∅
    end.

Definition menuStr (docURL : string) : string := Sprintf menuPre menuPost docURL.

Definition enableLogOut (uiOpts : gmap string value) (spec : JaegerSpec)
  : gmap string value :=
  if bool_decide (spec.(Ingress).(IngressEnabled) = Some false)
     || negb (bool_decide (spec.(Ingress).(Security) = IngressSecurityOAuthProxy))
  then uiOpts
  else
    match uiOpts !! "menu" with
    | Some _ => uiOpts
    | None =>
        let docURL := GetString "documentation-url" in
        let menuArray := [VNull; VNull] in
        let menuArray := Unmarshal (menuStr docURL) menuArray in
        <["menu" := VArray menuArray]> uiOpts
    end.

Definition normalizeUI (spec : JaegerSpec) : JaegerSpec :=
  let uiOpts : gmap string value := ∅ in
  let uiOpts :=
    if negb (IsEmpty spec.(UI).(UIOptions)) then
      match GetMap spec.(UI).(UIOptions) with
      | Some m => m
      | None => uiOpts
      end
    else uiOpts in
  let uiOpts := enableArchiveButton uiOpts spec.(Storage).(Options) in
  let uiOpts :=
    disableDependenciesTab uiOpts spec.(Storage).(Type_)
      spec.(Storage).(Dependencies).(DependenciesEnabled) in
  let uiOpts := enableLogOut uiOpts spec in
  if bool_decide (0 < size uiOpts)
  then set_UI {| UIOptions := NewFreeForm uiOpts |} spec
  else spec.

(** [jaeger.Spec.Storage] handed to a helper by reference. *)
Definition onStorage (f : JaegerStorageSpec -> JaegerStorageSpec)
  (jaeger : Jaeger) : Jaeger :=
  set_Spec (set_Storage (f jaeger.(Spec).(Storage)) jaeger.(Spec)) jaeger.

(** The blocks of [normalize], each under the comment that heads it in the
    source. *)

(* we need a name! *)
Definition needName (jaeger : Jaeger) : Jaeger :=
  if bool_decide (jaeger.(Name) = "") then set_Name "my-jaeger" jaeger
  else jaeger.

(* normalize the storage type *)
Definition storageTypeProvided (jaeger : Jaeger) : Jaeger :=
  if bool_decide (jaeger.(Spec).(Storage).(Type_) = "")
  then onStorage (set_Type "memory") jaeger
  else jaeger.

Definition storageTypeKnown (jaeger : Jaeger) : Jaeger :=
  if unknownStorage jaeger.(Spec).(Storage).(Type_)
  then onStorage (set_Type "memory") jaeger
  else jaeger.

(* normalize the deployment strategy *)
Definition deploymentStrategy (jaeger : Jaeger) : Jaeger :=
  if negb (bool_decide (jaeger.(Spec).(Strategy) = DeploymentStrategyProduction))
     && negb (bool_decide (jaeger.(Spec).(Strategy) = DeploymentStrategyStreaming))
  then set_Spec (set_Strategy DeploymentStrategyAllInOne jaeger.(Spec)) jaeger
  else jaeger.

(* check for incompatible options
   if the storage is `memory`, then the only possible strategy is `all-in-one` *)
Definition incompatibleOptions (jaeger : Jaeger) : Jaeger :=
  if negb (distributedStorage jaeger.(Spec).(Storage).(Type_))
     && negb (bool_decide (jaeger.(Spec).(Strategy) = DeploymentStrategyAllInOne))
  then set_Spec (set_Strategy DeploymentStrategyAllInOne jaeger.(Spec)) jaeger
  else jaeger.

(* we always set the value to None, except when we are on OpenShift *and*
   the user has not explicitly set to 'none' *)
Definition ingressSecurity (jaeger : Jaeger) : Jaeger :=
  let setSecurity v :=
    set_Spec (set_Ingress (set_Security v jaeger.(Spec).(Ingress)) jaeger.(Spec))
      jaeger in
  if bool_decide (GetString "platform" = FlagPlatformOpenShift)
     && negb (bool_decide
                (jaeger.(Spec).(Ingress).(Security) = IngressSecurityNoneExplicit))
  then setSecurity IngressSecurityOAuthProxy
  else setSecurity IngressSecurityNoneExplicit.

(** [normalize] changes the incoming Jaeger object so that the defaults are
    applied when needed and incompatible options are cleaned. *)
Definition normalize (jaeger : Jaeger) : Jaeger :=
  let jaeger := needName jaeger in
  let jaeger := storageTypeProvided jaeger in
  let jaeger := storageTypeKnown jaeger in
  let jaeger := deploymentStrategy jaeger in
  let jaeger := incompatibleOptions jaeger in
  let jaeger := ingressSecurity jaeger in
  (* note that the order normalization matters - UI norm expects all
     normalized properties *)
  let jaeger := onStorage normalizeSparkDependencies jaeger in
  let jaeger :=
    onStorage (fun s => set_EsIndexCleaner
                 (normalizeIndexCleaner s.(EsIndexCleaner) s.(Type_)) s) jaeger in
  let jaeger :=
    onStorage (fun s => set_Elasticsearch
                 (normalizeElasticsearch s.(Elasticsearch)) s) jaeger in
  let jaeger :=
    onStorage (fun s => set_EsRollover (normalizeRollover s.(EsRollover)) s)
      jaeger in
  set_Spec (normalizeUI jaeger.(Spec)) jaeger.

End Controller.

(** ** The stages of [normalize], one by one

    [normalize] runs its stages in a fixed order on one object.  The
    definitions below name what each of the first stages leaves in the field
    it owns, as a function of that field (and of the storage type it has
    read); [normalize_stages] shows that [normalize] is their composition. *)

Section Stages.
Context `{E : Externals}.

Definition resolveName (name : string) : string :=
  if bool_decide (name = "") then "my-jaeger" else name.

Definition resolveType (typ : string) : string :=
  let typ := if bool_decide (typ = "") then "memory" else typ in
  if unknownStorage typ then "memory" else typ.

Definition resolveStrategy (typ strategy : string) : string :=
  let strategy :=
    if negb (bool_decide (strategy = DeploymentStrategyProduction))
       && negb (bool_decide (strategy = DeploymentStrategyStreaming))
    then DeploymentStrategyAllInOne else strategy in
  if negb (distributedStorage typ)
     && negb (bool_decide (strategy = DeploymentStrategyAllInOne))
  then DeploymentStrategyAllInOne else strategy.

Definition resolveSecurity (security : string) : string :=
  if bool_decide (GetString "platform" = FlagPlatformOpenShift)
     && negb (bool_decide (security = IngressSecurityNoneExplicit))
  then IngressSecurityOAuthProxy else IngressSecurityNoneExplicit.

Definition resolveStorage (s : JaegerStorageSpec) : JaegerStorageSpec :=
  let s := set_Type (resolveType s.(Type_)) s in
  let s := normalizeSparkDependencies s in
  let s := set_EsIndexCleaner
             (normalizeIndexCleaner s.(EsIndexCleaner) s.(Type_)) s in
  let s := set_Elasticsearch (normalizeElasticsearch s.(Elasticsearch)) s in
  set_EsRollover (normalizeRollover s.(EsRollover)) s.

(** The spec as [normalizeUI], the last stage, receives it. *)
Definition beforeUI (j : Jaeger) : JaegerSpec :=
  {| Strategy := resolveStrategy (resolveType j.(Spec).(Storage).(Type_))
                   j.(Spec).(Strategy);
     UI := j.(Spec).(UI);
     Storage := resolveStorage j.(Spec).(Storage);
     Ingress := set_Security (resolveSecurity j.(Spec).(Ingress).(Security))
                  j.(Spec).(Ingress) |}.

(** The UI option table that [normalizeUI] starts from. *)
Definition loadUI (o : FreeForm) : gmap string value :=
  if negb (IsEmpty o) then
    match GetMap o with Some m => m | None => ∅ end
  else ∅.

(** The three derivations of [normalizeUI], in their order. *)
Definition deriveUI (spec : JaegerSpec) (uiOpts : gmap string value)
  : gmap string value :=
  enableLogOut
    (disableDependenciesTab
       (enableArchiveButton uiOpts spec.(Storage).(Options))
       spec.(Storage).(Type_)
       spec.(Storage).(Dependencies).(DependenciesEnabled))
    spec.

(** The condition under which [normalizeSparkDependencies] turns the job
    on, and the TLS part of it. *)
Definition tlsIsNotEnabled (opts : gmap string string) : bool :=
  negb (EqualFold (index opts "es.tls") "true")
  && negb (EqualFold (index opts "es.tls.skip-host-verify") "true")
  && EqualFold (index opts "es.tls.ca") "".

Definition autoEnableDependencies (spec : JaegerStorageSpec) : bool :=
  SupportedStorage spec.(Type_)
  && bool_decide (spec.(Dependencies).(DependenciesEnabled) = None)
  && negb (ShouldDeployElasticsearch spec)
  && tlsIsNotEnabled spec.(Options).

(** [dependencies.menuEnabled] in a UI option table. *)
Definition menuEnabled (uiOpts : gmap string value) : option value :=
  match uiOpts !! "dependencies" with
  | Some (VMap deps) => deps !! "menuEnabled"
  | _ => None
  end.

(** When [disableDependenciesTab] has nothing to do: the dependencies tab
    is supported, the [dependencies] entry is not a table, or
    [menuEnabled] is there already. *)
Definition depsSettled (u : gmap string value) (t : string) (en : option bool)
  : Prop :=
  EqualFold t "memory" || bool_decide (en = Some true) = true
  \/ (exists x, u !! "dependencies" = Some x /\ forall m, x <> VMap m)
  \/ is_Some (menuEnabled u).

End Stages.

(** The UI option table of a resolved object, as the next reader loads it. *)
Definition uiTable (j : Jaeger) : gmap string value :=
  loadUI j.(Spec).(UI).(UIOptions).

(** ** The menu that [enableLogOut] means to write *)

Definition about (docURL : string) : value :=
  VMap (<["label" := VString "About"]>
       (<["items" :=
            VArray [VMap (<["label" := VString "Documentation"]>
                         (<["url" := VString docURL]> ∅))]]> ∅)).

Definition logOut : value :=
  VMap (<["label" := VString "Log Out"]>
       (<["url" := VString "/oauth/sign_in"]>
       (<["anchorTarget" := VString "_self"]> ∅))).

(** A byte that a JSON string literal holds as it is: printable ASCII other
    than the double quote and the backslash. *)
Definition plain (c : ascii) : bool :=
  between 32 127 c && negb (eqc c DQ) && negb (eqc c BSL).

Fixpoint allPlain (s : string) : bool :=
  match s with
  | EmptyString => true
  | String c r => plain c && allPlain r
  end.

(** ** A sample environment

    Modelled from the spec: the constants and helpers gathered in
    [Externals] are declared outside the sources at hand, and the spec
    names them without giving their values.  [sample cfg] is one
    environment, used to run the pipeline on concrete inputs: the process
    configuration is the table [cfg]; the catalog has the in-memory backend,
    the search backend and three more; the dependencies job is supported on
    the search backend and on Cassandra; a search-index deployment is
    provisioned for the search backend when no server URL is given; an
    unset image name resolves to the configured default.  The folding table
    [sampleFold] has the orbits of the ASCII letters as the Go library has
    them, those of [K] and [S] with the Kelvin sign U+212A and the long s
    U+017F in them, and leaves every other rune alone. *)
Definition sampleFold (r : N) : N :=
  if (r =? 75)%N then 107%N            (* K, k *)
  else if (r =? 107)%N then 8490%N     (* k, U+212A *)
  else if (r =? 8490)%N then 75%N      (* U+212A, K *)
  else if (r =? 83)%N then 115%N       (* S, s *)
  else if (r =? 115)%N then 383%N      (* s, U+017F *)
  else if (r =? 383)%N then 83%N       (* U+017F, S *)
  else if (65 <=? r)%N && (r <=? 90)%N then (r + 32)%N
  else if (97 <=? r)%N && (r <=? 122)%N then (r - 32)%N
  else r.

(** The smallest lower-case rune of the orbit of a rune in [sampleFold]: the
    name that two runes share exactly when they fold to each other. *)
Definition sampleOrbit (r : N) : N :=
  if (r =? 8490)%N then 107%N
  else if (r =? 383)%N then 115%N
  else if (65 <=? r)%N && (r <=? 90)%N then (r + 32)%N
  else r.

Definition sample (cfg : gmap string string) : Externals := {|
  DeploymentStrategyAllInOne := "allInOne";
  DeploymentStrategyProduction := "production";
  DeploymentStrategyStreaming := "streaming";
  IngressSecurityNoneExplicit := "none";
  IngressSecurityOAuthProxy := "oauth-proxy";
  FlagPlatformOpenShift := "openshift";
  ZeroRedundancy := "ZeroRedundancy";
  SingleRedundancy := "SingleRedundancy";
  GetString := index cfg;
  ValidTypes := ["memory"; "kafka"; "elasticsearch"; "cassandra"; "badger"];
  ShouldDeployElasticsearch := fun s =>
    equalFold sampleFold s.(Type_) "elasticsearch"
    && bool_decide (s.(Options) !! "es.server-urls" = None);
  SupportedStorage := fun storage =>
    equalFold sampleFold storage "elasticsearch"
    || equalFold sampleFold storage "cassandra";
  ImageName := fun image param =>
    if bool_decide (image = "") then index cfg param else image;
  SimpleFold := sampleFold
|}.

Definition kubernetes : gmap string string := ∅.
Definition openshift : gmap string string :=
  <["platform" := "openshift"]>
  (<["documentation-url" := "https://www.jaegertracing.io/docs/latest"]> ∅).

(** An object with every field at its zero value, and variations of it. *)
Definition zeroJaeger : Jaeger := {|
  Name := "";
  Spec := {|
    Strategy := "";
    UI := {| UIOptions := FreeFormNone |};
    Storage := {|
      Type_ := "";
      Options := ∅;
      Dependencies := {| DependenciesEnabled := None; DependenciesImage := "";
                         DependenciesSchedule := "" |};
      EsIndexCleaner := {| IndexCleanerEnabled := None;
                           IndexCleanerNumberOfDays := None;
                           IndexCleanerSchedule := "";
                           IndexCleanerImage := "" |};
      EsRollover := {| RolloverImage := ""; RolloverSchedule := "" |};
      Elasticsearch := {| NodeCount := 0; RedundancyPolicy := "";
                          Resources := None |}
    |};
    Ingress := {| IngressEnabled := None; Security := "" |}
  |}
|}.

Definition withStorage (typ : string) (opts : gmap string string) (j : Jaeger)
  : Jaeger :=
  set_Spec (set_Storage
              {| Type_ := typ; Options := opts;
                 Dependencies := j.(Spec).(Storage).(Dependencies);
                 EsIndexCleaner := j.(Spec).(Storage).(EsIndexCleaner);
                 EsRollover := j.(Spec).(Storage).(EsRollover);
                 Elasticsearch := j.(Spec).(Storage).(Elasticsearch) |}
              j.(Spec)) j.

Definition withStrategy (strategy : string) (j : Jaeger) : Jaeger :=
  set_Spec (set_Strategy strategy j.(Spec)) j.

Definition withUI (m : gmap string value) (j : Jaeger) : Jaeger :=
  set_Spec (set_UI {| UIOptions := FreeFormTable m |} j.(Spec)) j.

(** Objects and configurations that the statements below are run on. *)
Definition productionES : Jaeger :=
  withStrategy "production" (withStorage "elasticsearch" ∅ zeroJaeger).

Definition mixedCaseES : Jaeger := withStorage "Elasticsearch" ∅ zeroJaeger.

Definition cassandraJaeger : Jaeger := withStorage "cassandra" ∅ zeroJaeger.

(** Storage types written with a rune outside ASCII that folds to an ASCII
    letter: [kafka] with the Kelvin sign U+212A (bytes E2 84 AA) for its
    first letter, and [elasticsearch] with the long s U+017F (bytes C5 BF)
    for its first [s]. *)
Definition kelvinKafka : string :=
  String "226" (String "132" (String "170" "afka")).
Definition longSElasticsearch : string :=
  "ela" +:+ String "197" (String "191" "ticsearch").

Definition userUI : gmap string value :=
  <["archiveEnabled" := VBool false]>
  (<["menu" := VString "mine"]>
  (<["dependencies" := VMap (<["menuEnabled" := VBool true]> ∅)]> ∅)).

(** OpenShift with a documentation URL that has a double quote in it. *)
Definition quotedURL : gmap string string :=
  <["platform" := "openshift"]> (<["documentation-url" := q "a'b"]> ∅).

(** ** [For]

    [For] returns the strategy for a Jaeger instance.  The object is
    normalised in place first, so the strategy that is built holds the
    normalised object. *)

Section Selection.
Context `{E : Externals}.

(** [corev1.Secret]: handed on, never looked into. *)
Variable Secret : Type.

(** The constant [v1.DeploymentStrategyDeprecatedAllInOne], declared outside
    the sources at hand as the other constants of [v1] are. *)
Variable DeploymentStrategyDeprecatedAllInOne : string.

Definition esCertGenerationScript : string := "./scripts/cert_generation.sh".

(** [storage.ElasticsearchDeployment], with the three fields that [For]
    fills. *)
Record ElasticsearchDeployment := {
  ESJaeger : Jaeger;
  CertScript : string;
  Secrets : list Secret
}.

(** Modelled from the spec: the strategy type [S] and its three
    constructors are declared outside the sources at hand; the spec calls
    the result an opaque topology handle, one of AllInOne, Production and
    Streaming.  A value of [S] is the constructor that [For] called and the
    arguments it passed. *)
Inductive S :=
| newAllInOneStrategy (jaeger : Jaeger)
| newStreamingStrategy (jaeger : Jaeger)
| newProductionStrategy (jaeger : Jaeger) (es : ElasticsearchDeployment).

Definition For (jaeger : Jaeger) (secrets : list Secret) : S :=
  let jaeger :=
    if bool_decide (jaeger.(Spec).(Strategy) = DeploymentStrategyDeprecatedAllInOne)
    then set_Spec (set_Strategy DeploymentStrategyAllInOne jaeger.(Spec)) jaeger
    else jaeger in
  let jaeger := normalize jaeger in
  if bool_decide (jaeger.(Spec).(Strategy) = DeploymentStrategyAllInOne)
  then newAllInOneStrategy jaeger
  else if bool_decide (jaeger.(Spec).(Strategy) = DeploymentStrategyStreaming)
  then newStreamingStrategy jaeger
  else
    let es := {| ESJaeger := jaeger; CertScript := esCertGenerationScript;
                 Secrets := secrets |} in
    newProductionStrategy jaeger es.

End Selection.

Arguments newAllInOneStrategy {Secret} jaeger.
Arguments newStreamingStrategy {Secret} jaeger.
Arguments newProductionStrategy {Secret} jaeger es.

(** The keys that [normalizeUI] derives. *)
Definition derivedKeys : list string := ["archiveEnabled"; "dependencies"; "menu"].

(** An object whose UI options do not decode to a table, on Elasticsearch
    in production. *)
Definition malformedUI : Jaeger :=
  set_Spec (set_UI {| UIOptions := FreeFormMalformed "[" |} productionES.(Spec))
    productionES.

(** * Properties *)

Section Properties.
Context `{E : Externals}.

Ltac proj :=
  cbv beta iota zeta delta
      [Name Spec Strategy UI Storage Ingress Type_ Options Dependencies
       EsIndexCleaner EsRollover Elasticsearch IngressEnabled Security
       set_Name set_Spec set_Storage set_Type set_Strategy set_Ingress
       set_Security set_UI set_Dependencies set_EsIndexCleaner set_EsRollover
       set_Elasticsearch onStorage
       DependenciesEnabled DependenciesImage DependenciesSchedule
       IndexCleanerEnabled IndexCleanerNumberOfDays IndexCleanerSchedule
       IndexCleanerImage RolloverImage RolloverSchedule NodeCount
       RedundancyPolicy Resources set_DependenciesEnabled
       set_DependenciesImage set_DependenciesSchedule set_IndexCleanerEnabled
       set_IndexCleanerNumberOfDays set_IndexCleanerSchedule
       set_IndexCleanerImage set_RolloverImage set_RolloverSchedule
       set_NodeCount set_RedundancyPolicy set_Resources UIOptions].

Lemma needName_eq j : needName j = set_Name (resolveName j.(Name)) j.
Proof. destruct j. unfold needName, resolveName. proj. by case_bool_decide. Qed.

Lemma storageType_eq j :
  storageTypeKnown (storageTypeProvided j) =
  onStorage (set_Type (resolveType j.(Spec).(Storage).(Type_))) j.
Proof.
  destruct j as [name [strategy ui [typ opts deps idx roll es] ing]].
  unfold storageTypeKnown, storageTypeProvided, resolveType. proj.
  case_bool_decide; proj; destruct (unknownStorage _); proj. all: done.
Qed.

Lemma strategy_eq j :
  incompatibleOptions (deploymentStrategy j) =
  set_Spec (set_Strategy
              (resolveStrategy j.(Spec).(Storage).(Type_) j.(Spec).(Strategy))
              j.(Spec)) j.
Proof.
  destruct j as [name [strategy ui st ing]].
  unfold incompatibleOptions, deploymentStrategy, resolveStrategy. proj.
  destruct (negb (bool_decide (strategy = _)) && _); proj;
    destruct (negb _ && negb _); proj; done.
Qed.

Lemma ingressSecurity_eq j :
  ingressSecurity j =
  set_Spec (set_Ingress
              (set_Security (resolveSecurity j.(Spec).(Ingress).(Security))
                 j.(Spec).(Ingress)) j.(Spec)) j.
Proof. unfold ingressSecurity, resolveSecurity. by destruct (_ && _). Qed.

Lemma normalize_stages (j : Jaeger) :
  normalize j =
  {| Name := resolveName j.(Name); Spec := normalizeUI (beforeUI j) |}.
Proof.
  unfold normalize.
  rewrite needName_eq, storageType_eq, strategy_eq, ingressSecurity_eq.
  destruct j as [name [strategy ui [typ opts deps idx roll es] [ien sec]]].
  unfold resolveStorage, beforeUI. proj. reflexivity.
Qed.

(** Fields that [normalizeUI] leaves alone. *)
Lemma normalizeUI_fields spec :
  (normalizeUI spec).(Strategy) = spec.(Strategy)
  /\ (normalizeUI spec).(Storage) = spec.(Storage)
  /\ (normalizeUI spec).(Ingress) = spec.(Ingress).
Proof. unfold normalizeUI. by destruct (bool_decide (0 < size _)). Qed.

Lemma normalizeUI_eta spec :
  normalizeUI spec =
  {| Strategy := spec.(Strategy); UI := (normalizeUI spec).(UI);
     Storage := spec.(Storage); Ingress := spec.(Ingress) |}.
Proof.
  destruct (normalizeUI_fields spec) as (Hs & Hst & Hin).
  destruct (normalizeUI spec). cbn in *. by subst.
Qed.

Lemma normalizeUI_eq spec :
  normalizeUI spec =
  let uiOpts := deriveUI spec (loadUI spec.(UI).(UIOptions)) in
  if bool_decide (0 < size uiOpts)
  then set_UI {| UIOptions := NewFreeForm uiOpts |} spec
  else spec.
Proof. reflexivity. Qed.

Lemma resolveStorage_Type s : (resolveStorage s).(Type_) = resolveType s.(Type_).
Proof.
  unfold resolveStorage, normalizeSparkDependencies. proj.
  repeat (destruct (_ : bool); proj); reflexivity.
Qed.

Lemma resolveStorage_Options s : (resolveStorage s).(Options) = s.(Options).
Proof.
  unfold resolveStorage, normalizeSparkDependencies. proj.
  repeat (destruct (_ : bool); proj); reflexivity.
Qed.

Lemma normalizeSparkDependencies_eq s :
  normalizeSparkDependencies s =
  set_Dependencies
    {| DependenciesEnabled :=
         if autoEnableDependencies s then Some true
         else s.(Dependencies).(DependenciesEnabled);
       DependenciesImage :=
         if bool_decide (s.(Dependencies).(DependenciesImage) = "")
         then GetString "jaeger-spark-dependencies-image"
         else s.(Dependencies).(DependenciesImage);
       DependenciesSchedule :=
         if bool_decide (s.(Dependencies).(DependenciesSchedule) = "")
         then "55 23 * * *" else s.(Dependencies).(DependenciesSchedule) |} s.
Proof.
  destruct s as [typ opts [en img sch] idx roll es].
  unfold normalizeSparkDependencies, autoEnableDependencies, tlsIsNotEnabled.
  proj.
  destruct (SupportedStorage typ && _ && _ && _); proj;
    destruct (bool_decide (img = "")); proj;
    destruct (bool_decide (sch = "")); proj; reflexivity.
Qed.

Lemma normalizeIndexCleaner_eq c storage :
  normalizeIndexCleaner c storage =
  {| IndexCleanerEnabled :=
       if bool_decide (storage = "elasticsearch")
          && bool_decide (c.(IndexCleanerEnabled) = None)
       then Some true else c.(IndexCleanerEnabled);
     IndexCleanerNumberOfDays :=
       if bool_decide (c.(IndexCleanerNumberOfDays) = None)
       then Some 7%Z else c.(IndexCleanerNumberOfDays);
     IndexCleanerSchedule :=
       if bool_decide (c.(IndexCleanerSchedule) = "")
       then "55 23 * * *" else c.(IndexCleanerSchedule);
     IndexCleanerImage :=
       ImageName c.(IndexCleanerImage) "jaeger-es-index-cleaner-image" |}.
Proof.
  destruct c as [en days sch img]. unfold normalizeIndexCleaner. proj.
  destruct (bool_decide (storage = _) && _); proj;
    destruct (bool_decide (sch = "")); proj;
    destruct (bool_decide (days = None)); proj; reflexivity.
Qed.

Lemma normalizeElasticsearch_eq e :
  normalizeElasticsearch e =
  let count := if bool_decide (e.(NodeCount) = 0%Z) then 3%Z else e.(NodeCount) in
  {| NodeCount := count;
     RedundancyPolicy :=
       if bool_decide (e.(RedundancyPolicy) = "") then
         if bool_decide (count = 1%Z) then ZeroRedundancy else SingleRedundancy
       else e.(RedundancyPolicy);
     Resources :=
       match e.(Resources) with
       | None =>
           Some {| Limits := {[ "memory" := "16Gi" ]};
                   Requests := <[ "cpu" := "1" ]> {[ "memory" := "16Gi" ]} |}
       | Some r => Some r
       end |}.
Proof.
  destruct e as [n pol res]. unfold normalizeElasticsearch. proj.
  destruct (bool_decide (n = 0%Z)); proj;
    destruct (bool_decide (pol = "")); proj;
    try destruct (bool_decide (_ = 1%Z)); proj;
    destruct res; reflexivity.
Qed.

Lemma normalizeRollover_eq r :
  normalizeRollover r =
  {| RolloverImage := ImageName r.(RolloverImage) "jaeger-es-rollover-image";
     RolloverSchedule :=
       if bool_decide (r.(RolloverSchedule) = "")
       then "*/30 * * * *" else r.(RolloverSchedule) |}.
Proof.
  destruct r as [img sch]. unfold normalizeRollover. proj.
  destruct (bool_decide (sch = "")); reflexivity.
Qed.

Lemma resolveStorage_eq s :
  resolveStorage s =
  let s1 := set_Type (resolveType s.(Type_)) s in
  {| Type_ := resolveType s.(Type_);
     Options := s.(Options);
     Dependencies := (normalizeSparkDependencies s1).(Dependencies);
     EsIndexCleaner := normalizeIndexCleaner s.(EsIndexCleaner) (resolveType s.(Type_));
     EsRollover := normalizeRollover s.(EsRollover);
     Elasticsearch := normalizeElasticsearch s.(Elasticsearch) |}.
Proof.
  unfold resolveStorage. cbv zeta. rewrite normalizeSparkDependencies_eq.
  destruct s. proj. reflexivity.
Qed.

(** *** The three UI derivations, key by key *)

Lemma enableArchiveButton_other u o k :
  k <> "archiveEnabled" -> enableArchiveButton u o !! k = u !! k.
Proof.
  intros Hk. unfold enableArchiveButton.
  destruct (u !! "archiveEnabled"); [done|].
  destruct (_ || _); [|done]. by rewrite lookup_insert_ne.
Qed.

Lemma enableArchiveButton_key u o :
  enableArchiveButton u o !! "archiveEnabled" =
  match u !! "archiveEnabled" with
  | Some v => Some v
  | None =>
      if EqualFold (index o "es-archive.enabled") "true"
         || EqualFold (index o "cassandra-archive.enabled") "true"
      then Some (VBool true) else None
  end.
Proof.
  unfold enableArchiveButton.
  destruct (u !! "archiveEnabled") eqn:Hu; [done|].
  destruct (_ || _); [|done]. by rewrite lookup_insert_eq.
Qed.

Lemma enableArchiveButton_settled u o :
  is_Some (u !! "archiveEnabled")
  \/ EqualFold (index o "es-archive.enabled") "true"
     || EqualFold (index o "cassandra-archive.enabled") "true" = false ->
  enableArchiveButton u o = u.
Proof.
  unfold enableArchiveButton. intros [[v ->]| ->]; [done|].
  by destruct (u !! "archiveEnabled").
Qed.

Lemma disableDependenciesTab_other u t en k :
  k <> "dependencies" -> disableDependenciesTab u t en !! k = u !! k.
Proof.
  intros Hk. unfold disableDependenciesTab.
  destruct (_ || _); [done|].
  destruct (u !! "dependencies") as [[| | | | |deps]|]; try done.
  - destruct (deps !! "menuEnabled"); [done|]. by rewrite lookup_insert_ne.
  - rewrite lookup_empty. by rewrite lookup_insert_ne.
Qed.

Lemma disableDependenciesTab_settled u t en :
  depsSettled u t en -> disableDependenciesTab u t en = u.
Proof.
  unfold depsSettled, disableDependenciesTab, menuEnabled.
  intros [->|[(x & Hx & Hm)|[v Hv]]]; [done| |].
  - destruct (_ || _); [done|]. rewrite Hx.
    destruct x; try done. by destruct (Hm m).
  - destruct (_ || _); [done|].
    destruct (u !! "dependencies") as [[| | | | |deps]|]; try done.
    by rewrite Hv.
Qed.

Lemma disableDependenciesTab_post u t en :
  depsSettled (disableDependenciesTab u t en) t en.
Proof.
  unfold depsSettled, disableDependenciesTab, menuEnabled.
  destruct (_ || _) eqn:Hc; [by left|]. right.
  destruct (u !! "dependencies") as [x|] eqn:Hx.
  - destruct x as [| | | | |deps];
      try (left; eexists; split; [exact Hx|done]).
    right. destruct (deps !! "menuEnabled") eqn:Hd.
    + by rewrite Hx, Hd.
    + by rewrite lookup_insert_eq, lookup_insert_eq.
  - right. rewrite lookup_empty. by rewrite lookup_insert_eq, lookup_insert_eq.
Qed.

Lemma enableLogOut_other u spec k :
  k <> "menu" -> enableLogOut u spec !! k = u !! k.
Proof.
  intros Hk. unfold enableLogOut.
  destruct (_ || _); [done|].
  destruct (u !! "menu"); [done|]. by rewrite lookup_insert_ne.
Qed.

Lemma enableLogOut_settled u spec :
  bool_decide (spec.(Ingress).(IngressEnabled) = Some false)
  || negb (bool_decide (spec.(Ingress).(Security) = IngressSecurityOAuthProxy))
  = true \/ is_Some (u !! "menu") ->
  enableLogOut u spec = u.
Proof.
  unfold enableLogOut. intros [->|[v Hv]]; [done|].
  destruct (_ || _); [done|]. by rewrite Hv.
Qed.

Lemma enableLogOut_post u spec :
  bool_decide (spec.(Ingress).(IngressEnabled) = Some false)
  || negb (bool_decide (spec.(Ingress).(Security) = IngressSecurityOAuthProxy))
  = true \/ is_Some (enableLogOut u spec !! "menu").
Proof.
  unfold enableLogOut. destruct (_ || _); [by left|right].
  destruct (u !! "menu") eqn:Hu; [by rewrite Hu|].
  by rewrite lookup_insert_eq.
Qed.

Lemma menuEnabled_dependencies u u' :
  u' !! "dependencies" = u !! "dependencies" -> menuEnabled u' = menuEnabled u.
Proof. unfold menuEnabled. by intros ->. Qed.

Lemma depsSettled_dependencies u u' t en :
  u' !! "dependencies" = u !! "dependencies" ->
  depsSettled u t en -> depsSettled u' t en.
Proof.
  unfold depsSettled. intros Hd [H|[H|H]]; [by left| |].
  - right; left. by rewrite Hd.
  - right; right. by rewrite (menuEnabled_dependencies _ _ Hd).
Qed.

(** The derivations settle after one round. *)
Lemma deriveUI_idem spec u : deriveUI spec (deriveUI spec u) = deriveUI spec u.
Proof.
  unfold deriveUI.
  set (o := spec.(Storage).(Options)). set (t := spec.(Storage).(Type_)).
  set (en := spec.(Storage).(Dependencies).(DependenciesEnabled)).
  set (u1 := enableArchiveButton u o).
  set (u2 := disableDependenciesTab u1 t en).
  set (u3 := enableLogOut u2 spec).
  assert (Ha : enableArchiveButton u3 o = u3).
  { apply enableArchiveButton_settled.
    unfold u3, u2. rewrite enableLogOut_other, disableDependenciesTab_other by done.
    unfold u1. rewrite enableArchiveButton_key.
    destruct (u !! "archiveEnabled"); [by left|].
    destruct (_ || _); [by left|by right]. }
  rewrite Ha.
  assert (Hd : disableDependenciesTab u3 t en = u3).
  { apply disableDependenciesTab_settled.
    apply (depsSettled_dependencies u2); [by apply enableLogOut_other|].
    apply disableDependenciesTab_post. }
  rewrite Hd.
  apply enableLogOut_settled, enableLogOut_post.
Qed.

(** [deriveUI] reads the storage and ingress sections only. *)
Lemma deriveUI_ext spec spec' u :
  spec'.(Storage) = spec.(Storage) -> spec'.(Ingress) = spec.(Ingress) ->
  deriveUI spec' u = deriveUI spec u.
Proof.
  intros Hs Hi. unfold deriveUI, enableLogOut. by rewrite Hs, Hi.
Qed.

(** No derivation removes a key. *)
Lemma enableArchiveButton_mono u o k :
  is_Some (u !! k) -> is_Some (enableArchiveButton u o !! k).
Proof.
  intros Hk. destruct (decide (k = "archiveEnabled")) as [->|Hne].
  - rewrite enableArchiveButton_key. by destruct Hk as [v ->].
  - by rewrite enableArchiveButton_other.
Qed.

Lemma disableDependenciesTab_mono u t en k :
  is_Some (u !! k) -> is_Some (disableDependenciesTab u t en !! k).
Proof.
  intros Hk. destruct (decide (k = "dependencies")) as [->|Hne].
  - unfold disableDependenciesTab. destruct (_ || _); [done|].
    destruct Hk as [v Hv]. rewrite Hv.
    destruct v; try (by rewrite Hv).
    destruct (m !! "menuEnabled"); [by rewrite Hv|by rewrite lookup_insert_eq].
  - by rewrite disableDependenciesTab_other.
Qed.

Lemma enableLogOut_key u spec :
  enableLogOut u spec !! "menu" =
  if bool_decide (spec.(Ingress).(IngressEnabled) = Some false)
     || negb (bool_decide (spec.(Ingress).(Security) = IngressSecurityOAuthProxy))
  then u !! "menu"
  else match u !! "menu" with
       | Some v => Some v
       | None =>
           Some (VArray (Unmarshal (menuStr (GetString "documentation-url"))
                           [VNull; VNull]))
       end.
Proof.
  unfold enableLogOut. destruct (_ || _); [done|].
  destruct (u !! "menu") eqn:Hu; [done|]. by rewrite lookup_insert_eq.
Qed.

Lemma enableLogOut_mono u spec k :
  is_Some (u !! k) -> is_Some (enableLogOut u spec !! k).
Proof.
  intros Hk. destruct (decide (k = "menu")) as [->|Hne].
  - rewrite enableLogOut_key. destruct Hk as [v ->]. by destruct (_ || _).
  - by rewrite enableLogOut_other.
Qed.

Lemma deriveUI_mono spec u k :
  is_Some (u !! k) -> is_Some (deriveUI spec u !! k).
Proof.
  intros Hk. unfold deriveUI.
  by apply enableLogOut_mono, disableDependenciesTab_mono, enableArchiveButton_mono.
Qed.

Lemma deriveUI_empty spec u : deriveUI spec u = ∅ -> u = ∅.
Proof.
  intros Hu. apply map_eq. intros k. rewrite lookup_empty.
  destruct (u !! k) eqn:Hk; [|done].
  destruct (deriveUI_mono spec u k) as [w Hw]; [by rewrite Hk|].
  by rewrite Hu in Hw.
Qed.

(** What the next reader of the object finds as the UI option table. *)
Lemma loadUI_normalizeUI spec :
  loadUI (normalizeUI spec).(UI).(UIOptions) =
  deriveUI spec (loadUI spec.(UI).(UIOptions)).
Proof.
  rewrite normalizeUI_eq. cbv zeta.
  set (u := deriveUI spec _).
  case_bool_decide as Hsz.
  - proj. unfold NewFreeForm, loadUI, IsEmpty, GetMap.
    case_bool_decide as He; [|done]. rewrite He in Hsz.
    rewrite map_size_empty in Hsz. lia.
  - assert (u = ∅) as Hu by (apply map_size_empty_iff; lia).
    rewrite Hu. by apply (deriveUI_empty spec).
Qed.

Lemma normalizeUI_idem spec : normalizeUI (normalizeUI spec) = normalizeUI spec.
Proof.
  rewrite (normalizeUI_eq (normalizeUI spec)). cbv zeta.
  destruct (normalizeUI_fields spec) as (_ & Hst & Hin).
  rewrite (deriveUI_ext spec) by done.
  rewrite loadUI_normalizeUI, deriveUI_idem.
  rewrite (normalizeUI_eq spec). cbv zeta.
  destruct (bool_decide (0 < size _)); [|done].
  by destruct spec.
Qed.

(** *** Each stage settles after one round *)

Lemma resolveName_idem name : resolveName (resolveName name) = resolveName name.
Proof. unfold resolveName. by repeat case_bool_decide. Qed.

Lemma resolveType_memory : resolveType "memory" = "memory".
Proof.
  unfold resolveType. rewrite bool_decide_eq_false_2 by done.
  by destruct (unknownStorage "memory").
Qed.

Lemma resolveType_idem typ : resolveType (resolveType typ) = resolveType typ.
Proof.
  unfold resolveType at 2 3.
  case_bool_decide as He.
  - destruct (unknownStorage "memory"); apply resolveType_memory.
  - destruct (unknownStorage typ) eqn:Hu; [apply resolveType_memory|].
    unfold resolveType. by rewrite bool_decide_eq_false_2, Hu.
Qed.

Lemma resolveStrategy_idem typ strategy :
  resolveStrategy typ (resolveStrategy typ strategy) = resolveStrategy typ strategy.
Proof.
  unfold resolveStrategy.
  destruct (distributedStorage typ); cbn [negb andb];
  repeat (case_bool_decide; cbn [negb andb]; subst; try congruence).
  all: done.
Qed.

Lemma resolveSecurity_idem security :
  resolveSecurity (resolveSecurity security) = resolveSecurity security.
Proof.
  unfold resolveSecurity.
  repeat (case_bool_decide; cbn [negb andb] in *; subst; try congruence).
Qed.

Lemma normalizeElasticsearch_idem e :
  normalizeElasticsearch (normalizeElasticsearch e) = normalizeElasticsearch e.
Proof.
  rewrite !normalizeElasticsearch_eq. destruct e as [n pol res]. proj.
  f_equal.
  - by repeat case_bool_decide.
  - repeat case_bool_decide; congruence.
  - by destruct res.
Qed.

Section Idempotence.
Hypothesis ImageName_idem : forall image param,
  ImageName (ImageName image param) param = ImageName image param.
Hypothesis ShouldDeploy_frame : forall s s' : JaegerStorageSpec,
  s.(Type_) = s'.(Type_) -> s.(Options) = s'.(Options) ->
  ShouldDeployElasticsearch s = ShouldDeployElasticsearch s'.

Lemma normalizeIndexCleaner_idem c storage :
  normalizeIndexCleaner (normalizeIndexCleaner c storage) storage =
  normalizeIndexCleaner c storage.
Proof.
  rewrite !normalizeIndexCleaner_eq. destruct c as [en days sch img]. proj.
  f_equal.
  - repeat (case_bool_decide; cbn [andb]); congruence.
  - repeat case_bool_decide; congruence.
  - repeat case_bool_decide; congruence.
  - apply ImageName_idem.
Qed.

Lemma normalizeRollover_idem r :
  normalizeRollover (normalizeRollover r) = normalizeRollover r.
Proof.
  rewrite !normalizeRollover_eq. destruct r as [img sch]. proj.
  f_equal; [apply ImageName_idem|]. repeat case_bool_decide; congruence.
Qed.

Lemma autoEnableDependencies_frame s s' :
  s.(Type_) = s'.(Type_) -> s.(Options) = s'.(Options) ->
  s.(Dependencies).(DependenciesEnabled) = s'.(Dependencies).(DependenciesEnabled) ->
  autoEnableDependencies s = autoEnableDependencies s'.
Proof.
  intros Ht Ho He. unfold autoEnableDependencies.
  by rewrite Ht, Ho, He, (ShouldDeploy_frame s s').
Qed.

Lemma normalizeSparkDependencies_settled s s2 :
  s2.(Type_) = s.(Type_) -> s2.(Options) = s.(Options) ->
  s2.(Dependencies) = (normalizeSparkDependencies s).(Dependencies) ->
  (normalizeSparkDependencies s2).(Dependencies) = s2.(Dependencies).
Proof.
  intros Ht Ho Hd. rewrite normalizeSparkDependencies_eq in Hd |- *.
  destruct s2 as [typ2 opts2 deps2 idx2 roll2 es2].
  cbn [Type_ Options Dependencies set_Dependencies] in Ht, Ho, Hd |- *.
  subst typ2 opts2 deps2.
  cbn [DependenciesEnabled DependenciesImage DependenciesSchedule].
  f_equal; [|by repeat case_bool_decide..].
  match goal with |- (if ?a then _ else _) = _ => assert (a = false) as -> end;
    [|done].
  unfold autoEnableDependencies at 1.
  cbn [Type_ Options Dependencies DependenciesEnabled].
  match goal with |- context [ShouldDeployElasticsearch ?x] =>
    rewrite (ShouldDeploy_frame x s) by done end.
  destruct (autoEnableDependencies s) eqn:Ha.
  - rewrite bool_decide_eq_false_2 by done. by rewrite andb_false_r.
  - exact Ha.
Qed.

Lemma resolveStorage_idem s : resolveStorage (resolveStorage s) = resolveStorage s.
Proof.
  rewrite (resolveStorage_eq (resolveStorage s)). cbv zeta.
  rewrite resolveStorage_Type, resolveStorage_Options, resolveType_idem.
  rewrite (normalizeSparkDependencies_settled (set_Type (resolveType s.(Type_)) s)).
  all: cbn [Type_ Options Dependencies set_Type].
  all: rewrite ?resolveStorage_Type, ?resolveStorage_Options; try done.
  all: rewrite (resolveStorage_eq s); cbv zeta;
    cbn [Dependencies EsIndexCleaner EsRollover Elasticsearch]; try done.
  by rewrite normalizeIndexCleaner_idem, normalizeRollover_idem,
    normalizeElasticsearch_idem.
Qed.

(** C1.  Normalisation is idempotent: for every object and a fixed
    environment, normalising a second time changes nothing.  The two
    helpers that are not in the sources are taken as they are used: an image
    name already resolved resolves to itself, and whether a search-index
    deployment is provisioned depends on the storage type and options only. *)
Theorem normalize_idempotent (j : Jaeger) : normalize (normalize j) = normalize j.
Proof.
  rewrite (normalize_stages j). set (spec1 := beforeUI j).
  rewrite normalize_stages. cbn [Name Spec].
  rewrite resolveName_idem. f_equal.
  transitivity (normalizeUI (normalizeUI spec1)); [|apply normalizeUI_idem].
  f_equal. rewrite (normalizeUI_eta spec1).
  unfold beforeUI at 1. cbn [Spec Strategy UI Storage Ingress].
  unfold spec1, beforeUI.
  cbn [Strategy Storage Ingress Security set_Security IngressEnabled].
  by rewrite resolveStorage_Type, resolveType_idem, resolveStrategy_idem,
    resolveStorage_idem, resolveSecurity_idem.
Qed.
End Idempotence.
End Properties.

(** *** Decoding the menu *)

Lemma scan_app a b st toks :
  scan (a +:+ b) st toks =
  match scan a st toks with
  | Some (st', toks') => scan b st' toks'
  | None => None
  end.
Proof.
  revert st toks. induction a as [|c a IH]; intros st toks; [done|].
  change (String c a +:+ b) with (String c (a +:+ b)). cbn [scan].
  destruct (lstep st c toks) as [[st' toks']|]; [apply IH|done].
Qed.

Lemma plain_inv c :
  plain c = true ->
  eqc c DQ = false /\ eqc c BSL = false
  /\ (byte c <? 32)%N = false /\ (byte c <? 128)%N = true.
Proof.
  unfold plain, between. intros H.
  repeat (apply andb_prop in H as [H ?]).
  apply N.leb_le in H. 
  repeat split; try by apply negb_true_iff.
  - apply N.ltb_ge. lia.
  - apply N.ltb_lt. apply N.leb_le in H2. lia.
Qed.

Lemma scan_plain d acc toks :
  allPlain d = true ->
  scan d (LStr acc) toks = Some (LStr (rev (list_ascii_of_string d) ++ acc), toks).
Proof.
  revert acc. induction d as [|c d IH]; intros acc H; [done|].
  cbn [allPlain] in H. apply andb_prop in H as [Hc Hd].
  destruct (plain_inv c Hc) as (Hq & Hb & Hlo & _).
  cbn [scan lstep list_ascii_of_string rev]. rewrite Hq, Hb, Hlo.
  rewrite IH by done. by rewrite <- app_assoc.
Qed.

Lemma unquote_plain d : allPlain d = true -> unquote d = Some d.
Proof.
  induction d as [|c d IH]; intros H; [done|].
  cbn [allPlain] in H. apply andb_prop in H as [Hc Hd].
  destruct (plain_inv c Hc) as (Hq & Hb & Hlo & Hhi).
  cbn [unquote]. rewrite Hb, Hq, Hlo, Hhi. cbn [orb].
  by rewrite IH.
Qed.

Lemma text_rev d : text (rev (list_ascii_of_string d)) = d.
Proof.
  unfold text. by rewrite rev_involutive, string_of_list_ascii_of_string.
Qed.

(** With a documentation URL of plain bytes the template decodes to the
    menu of two entries. *)
Lemma Unmarshal_menuStr docURL :
  allPlain docURL = true ->
  Unmarshal (menuStr docURL) [VNull; VNull] = [about docURL; logOut].
Proof.
  intros H. unfold Unmarshal, decode, tokens, menuStr, Sprintf.
  rewrite scan_app.
  destruct (scan menuPre LTop []) as [[st toks]|] eqn:Hpre;
    [|by vm_compute in Hpre].
  vm_compute in Hpre. injection Hpre as <- <-.
  rewrite scan_app, scan_plain, app_nil_r by done.
  eassert (menuPost = String DQ _) as -> by reflexivity.
  cbn [scan lstep]. change (eqc DQ DQ) with true. cbn match.
  rewrite text_rev, unquote_plain by done.
  vm_compute. reflexivity.
Qed.

Section Resolved.
Context `{E : Externals}.

(** *** The fields of a resolved object *)

Lemma normalize_Spec j : (normalize j).(Spec) = normalizeUI (beforeUI j).
Proof. by rewrite normalize_stages. Qed.

Lemma normalize_Storage j :
  (normalize j).(Spec).(Storage) = resolveStorage j.(Spec).(Storage).
Proof.
  rewrite normalize_Spec.
  by destruct (normalizeUI_fields (beforeUI j)) as (_ & -> & _).
Qed.

Lemma normalize_Type j :
  (normalize j).(Spec).(Storage).(Type_) = resolveType j.(Spec).(Storage).(Type_).
Proof. rewrite normalize_Storage. apply resolveStorage_Type. Qed.

Lemma normalize_Strategy j :
  (normalize j).(Spec).(Strategy) =
  resolveStrategy (resolveType j.(Spec).(Storage).(Type_)) j.(Spec).(Strategy).
Proof.
  rewrite normalize_Spec.
  by destruct (normalizeUI_fields (beforeUI j)) as (-> & _ & _).
Qed.

Lemma normalize_Ingress j :
  (normalize j).(Spec).(Ingress) =
  set_Security (resolveSecurity j.(Spec).(Ingress).(Security)) j.(Spec).(Ingress).
Proof.
  rewrite normalize_Spec.
  by destruct (normalizeUI_fields (beforeUI j)) as (_ & _ & ->).
Qed.

Lemma normalize_uiTable j :
  uiTable (normalize j) = deriveUI (beforeUI j) (uiTable j).
Proof.
  unfold uiTable. rewrite normalize_Spec.
  by rewrite (loadUI_normalizeUI (beforeUI j)).
Qed.

Lemma unknownStorageIn_true typ ks :
  unknownStorageIn typ ks = true <-> forall k, k ∈ ks -> EqualFold typ k = false.
Proof.
  induction ks as [|k ks IH]; cbn.
  - split; [|done]. intros _ k Hk. by apply elem_of_nil in Hk.
  - destruct (EqualFold typ k) eqn:Hk.
    + split; [done|]. intros H. specialize (H k (list_elem_of_here _ _)).
      congruence.
    + rewrite IH. split.
      * intros H k' [->|Hin]%elem_of_cons; auto.
      * intros H k' Hin. apply H. by apply list_elem_of_further.
Qed.

Lemma unknownStorage_true typ :
  unknownStorage typ = true <-> forall k, k ∈ ValidTypes -> EqualFold typ k = false.
Proof. apply unknownStorageIn_true. Qed.

Lemma unknownStorage_false typ :
  unknownStorage typ = false <-> exists k, k ∈ ValidTypes /\ EqualFold typ k = true.
Proof.
  unfold unknownStorage. induction ValidTypes as [|k ks IH]; cbn.
  - split; [done|]. intros (k & Hk & _). by apply elem_of_nil in Hk.
  - destruct (EqualFold typ k) eqn:Hk.
    + split; [|done]. intros _. exists k. split; [apply list_elem_of_here|done].
    + rewrite IH. split.
      * intros (k' & Hin & Hk'). exists k'. split; [by apply list_elem_of_further|done].
      * intros (k' & [->|Hin]%elem_of_cons & Hk'); [congruence|by exists k'].
Qed.

Lemma resolveStrategy_nondistributed typ strategy :
  distributedStorage typ = false ->
  resolveStrategy typ strategy = DeploymentStrategyAllInOne.
Proof.
  unfold resolveStrategy. intros ->. cbn [negb andb]. by case_bool_decide.
Qed.

Lemma resolveType_known typ :
  typ <> "" -> unknownStorage typ = false -> resolveType typ = typ.
Proof.
  intros Hne Hk. unfold resolveType.
  by rewrite bool_decide_eq_false_2, Hk.
Qed.

(** C2.  Whenever the storage type of the resolved object is not a
    distributed backend (the in-memory one or badger), the resolved strategy
    is AllInOne, whatever strategy was asked for. *)
Theorem nondistributed_storage_allInOne (j : Jaeger) :
  distributedStorage (normalize j).(Spec).(Storage).(Type_) = false ->
  (normalize j).(Spec).(Strategy) = DeploymentStrategyAllInOne.
Proof.
  rewrite normalize_Type, normalize_Strategy.
  apply resolveStrategy_nondistributed.
Qed.

(** An input whose storage type is the in-memory backend, in any casing,
    is such an object. *)
Lemma memory_storage_allInOne (j : Jaeger) :
  EqualFold j.(Spec).(Storage).(Type_) "memory" = true ->
  (normalize j).(Spec).(Strategy) = DeploymentStrategyAllInOne.
Proof.
  intros Hm. rewrite normalize_Strategy.
  apply resolveStrategy_nondistributed.
  unfold resolveType, distributedStorage.
  case_bool_decide as He; [by rewrite He in Hm|].
  destruct (unknownStorage _); [done|]. by rewrite Hm.
Qed.

(** C3.  An empty storage type, and one that matches no entry of the
    catalog under [EqualFold], becomes ["memory"]; a type that is given and
    matches an entry is left as it is. *)
Theorem storage_type_defaulting (j : Jaeger) :
  let typ := j.(Spec).(Storage).(Type_) in
  let typ' := (normalize j).(Spec).(Storage).(Type_) in
  (typ = "" \/ (forall k, k ∈ ValidTypes -> EqualFold typ k = false) ->
   typ' = "memory")
  /\ (typ <> "" -> (exists k, k ∈ ValidTypes /\ EqualFold typ k = true) ->
      typ' = typ).
Proof.
  cbv zeta. rewrite normalize_Type. unfold resolveType. split.
  - intros [->|Hu].
    + rewrite bool_decide_eq_true_2 by done. by destruct (unknownStorage _).
    + case_bool_decide; [by destruct (unknownStorage _)|].
      by rewrite (proj2 (unknownStorage_true _) Hu).
  - intros Hne Hk. rewrite bool_decide_eq_false_2 by done.
    by rewrite (proj2 (unknownStorage_false _) Hk).
Qed.

(** C4.  On OpenShift, unless the user set ingress security to the
    explicit none, the resolved ingress security is OAuthProxy; in every
    other case it is the explicit none.  So it is always one of the two. *)
Theorem ingress_security_resolved (j : Jaeger) :
  let security := j.(Spec).(Ingress).(Security) in
  let security' := (normalize j).(Spec).(Ingress).(Security) in
  (GetString "platform" = FlagPlatformOpenShift
   /\ security <> IngressSecurityNoneExplicit ->
   security' = IngressSecurityOAuthProxy)
  /\ (~ (GetString "platform" = FlagPlatformOpenShift
         /\ security <> IngressSecurityNoneExplicit) ->
      security' = IngressSecurityNoneExplicit)
  /\ (security' = IngressSecurityNoneExplicit
      \/ security' = IngressSecurityOAuthProxy).
Proof.
  cbv zeta. rewrite normalize_Ingress. cbn [Security set_Security].
  unfold resolveSecurity.
  repeat case_bool_decide; cbn [negb andb]; intuition congruence.
Qed.
End Resolved.

(** *** Case folding *)

Lemma foldRune_refl fold r : foldRune fold r r = true.
Proof. unfold foldRune. by rewrite N.eqb_refl. Qed.

Lemma foldRunes_refl fold rs : foldRunes fold rs rs = true.
Proof. induction rs as [|r rs IH]; [done|]. cbn. by rewrite foldRune_refl, IH. Qed.

Lemma EqualFold_refl `{E : Externals} s : EqualFold s s = true.
Proof. apply foldRunes_refl. Qed.

(** A string that is not empty has a rune. *)
Lemma runes_nil s : runes s = [] <-> s = "".
Proof.
  split; [|by intros ->]. destruct s as [|c r]; [done|]. cbn [runes].
  repeat match goal with
    | |- context [if ?b then _ else _] => destruct b
    | |- context [match ?x with EmptyString => _ | String _ _ => _ end] =>
        destruct x
    end; discriminate.
Qed.

Lemma EqualFold_empty_r `{E : Externals} s : EqualFold s "" = true <-> s = "".
Proof.
  rewrite <- runes_nil. unfold EqualFold, equalFold. cbn [runes].
  destruct (runes s); cbn; split; congruence.
Qed.

Section Claims.
Context `{E : Externals}.

Lemma normalize_Dependencies j :
  (normalize j).(Spec).(Storage).(Dependencies) =
  (normalizeSparkDependencies
     (set_Type (resolveType j.(Spec).(Storage).(Type_)) j.(Spec).(Storage)))
  .(Dependencies).
Proof. by rewrite normalize_Storage, resolveStorage_eq. Qed.

Lemma normalize_EsIndexCleaner j :
  (normalize j).(Spec).(Storage).(EsIndexCleaner) =
  normalizeIndexCleaner j.(Spec).(Storage).(EsIndexCleaner)
    (normalize j).(Spec).(Storage).(Type_).
Proof. by rewrite normalize_Type, normalize_Storage, resolveStorage_eq. Qed.

Lemma normalize_Elasticsearch j :
  (normalize j).(Spec).(Storage).(Elasticsearch) =
  normalizeElasticsearch j.(Spec).(Storage).(Elasticsearch).
Proof. by rewrite normalize_Storage, resolveStorage_eq. Qed.

Lemma menuEnabled_enableArchiveButton u o :
  menuEnabled (enableArchiveButton u o) = menuEnabled u.
Proof. apply menuEnabled_dependencies. by apply enableArchiveButton_other. Qed.

Lemma menuEnabled_enableLogOut u spec :
  menuEnabled (enableLogOut u spec) = menuEnabled u.
Proof. apply menuEnabled_dependencies. by apply enableLogOut_other. Qed.

(** C5.  A value that the user gave for [archiveEnabled], for the nested
    [dependencies.menuEnabled] or for [menu] is the value of that key after
    normalisation, whatever the rest of the object and the environment. *)
Theorem explicit_ui_settings_kept (j : Jaeger) (v : value) :
  (uiTable j !! "archiveEnabled" = Some v ->
   uiTable (normalize j) !! "archiveEnabled" = Some v)
  /\ (menuEnabled (uiTable j) = Some v ->
      menuEnabled (uiTable (normalize j)) = Some v)
  /\ (uiTable j !! "menu" = Some v ->
      uiTable (normalize j) !! "menu" = Some v).
Proof.
  rewrite normalize_uiTable. unfold deriveUI.
  set (spec := beforeUI j). set (u := uiTable j).
  split; [|split].
  - intros Hv.
    rewrite enableLogOut_other, disableDependenciesTab_other by done.
    by rewrite enableArchiveButton_key, Hv.
  - intros Hv. rewrite menuEnabled_enableLogOut.
    rewrite disableDependenciesTab_settled;
      [|right; right]; by rewrite menuEnabled_enableArchiveButton, Hv.
  - intros Hv. rewrite enableLogOut_key.
    rewrite disableDependenciesTab_other, enableArchiveButton_other by done.
    fold u. rewrite Hv. by destruct (_ || _).
Qed.

(** C6.  [normalizeSparkDependencies] turns the job on, from unset to
    true, exactly when the backend supports the job, the flag is unset, no
    search-index deployment is provisioned for the spec, and TLS is not
    configured; when a condition fails the flag is left as it was. *)
Theorem dependencies_auto_enable (spec : JaegerStorageSpec) :
  let opts := spec.(Options) in
  let enabled := spec.(Dependencies).(DependenciesEnabled) in
  let enabled' :=
    (normalizeSparkDependencies spec).(Dependencies).(DependenciesEnabled) in
  let tlsNotConfigured :=
    EqualFold (index opts "es.tls") "true" = false
    /\ EqualFold (index opts "es.tls.skip-host-verify") "true" = false
    /\ index opts "es.tls.ca" = "" in
  let conditions :=
    SupportedStorage spec.(Type_) = true
    /\ enabled = None
    /\ ShouldDeployElasticsearch spec = false
    /\ tlsNotConfigured in
  (conditions <-> enabled = None /\ enabled' = Some true)
  /\ (~ conditions -> enabled' = enabled).
Proof.
  cbv zeta. rewrite normalizeSparkDependencies_eq.
  cbn [Dependencies set_Dependencies DependenciesEnabled].
  unfold autoEnableDependencies, tlsIsNotEnabled.
  rewrite <- (EqualFold_empty_r (index _ "es.tls.ca")).
  destruct (SupportedStorage _), (ShouldDeployElasticsearch _),
    (EqualFold (index _ "es.tls") _),
    (EqualFold (index _ "es.tls.skip-host-verify") _),
    (EqualFold (index _ "es.tls.ca") _);
    case_bool_decide as He; cbn [negb andb];
    repeat split; try rewrite He; try (intuition congruence).
Qed.

(** C8.  [normalizeElasticsearch]: a node count of zero becomes 3; an unset
    redundancy policy becomes ZeroRedundancy when the node count, after
    that, is 1 and SingleRedundancy otherwise; absent resource requirements
    become the fixed bundle, and given ones are left as they are. *)
Theorem elasticsearch_defaults (e : ElasticsearchSpec) :
  let e' := normalizeElasticsearch e in
  (e.(NodeCount) = 0%Z -> e'.(NodeCount) = 3%Z)
  /\ (e.(NodeCount) <> 0%Z -> e'.(NodeCount) = e.(NodeCount))
  /\ (e.(RedundancyPolicy) = "" ->
      (e'.(NodeCount) = 1%Z -> e'.(RedundancyPolicy) = ZeroRedundancy)
      /\ (e'.(NodeCount) <> 1%Z -> e'.(RedundancyPolicy) = SingleRedundancy))
  /\ (e.(RedundancyPolicy) <> "" -> e'.(RedundancyPolicy) = e.(RedundancyPolicy))
  /\ (e.(Resources) = None ->
      e'.(Resources) =
      Some {| Limits := {[ "memory" := "16Gi" ]};
              Requests := <[ "cpu" := "1" ]> {[ "memory" := "16Gi" ]} |})
  /\ (forall r, e.(Resources) = Some r -> e'.(Resources) = Some r).
Proof.
  cbv zeta. rewrite normalizeElasticsearch_eq. destruct e as [n pol res].
  cbn [NodeCount RedundancyPolicy Resources].
  repeat split; intros; subst; repeat case_bool_decide; try done.
Qed.

(** In the pipeline the defaults apply to the Elasticsearch section of every
    object. *)
Lemma normalize_elasticsearch_defaults j :
  (normalize j).(Spec).(Storage).(Elasticsearch) =
  normalizeElasticsearch j.(Spec).(Storage).(Elasticsearch).
Proof. apply normalize_Elasticsearch. Qed.

(** The index cleaner is turned on for the exact type ["elasticsearch"]
    only. *)
Lemma index_cleaner_auto_enable (j : Jaeger) :
  j.(Spec).(Storage).(EsIndexCleaner).(IndexCleanerEnabled) = None ->
  (normalize j).(Spec).(Storage).(EsIndexCleaner).(IndexCleanerEnabled) =
  if bool_decide ((normalize j).(Spec).(Storage).(Type_) = "elasticsearch")
  then Some true else None.
Proof.
  intros Hn. rewrite normalize_EsIndexCleaner, normalizeIndexCleaner_eq.
  cbn [IndexCleanerEnabled]. rewrite Hn.
  by case_bool_decide.
Qed.

(** C10.  A storage type that equals ["elasticsearch"] under [EqualFold]
    but not exactly keeps the casing the user wrote, and an unset
    index-cleaner flag stays unset.  The catalog is taken to list
    ["elasticsearch"].  [EqualFold] is the comparison of the Go library,
    so the types meant are those that differ in the case of a letter and
    those written with a rune that folds to one, whatever the table. *)
Theorem index_cleaner_case_sensitive (j : Jaeger) :
  let typ := j.(Spec).(Storage).(Type_) in
  "elasticsearch" ∈ ValidTypes ->
  EqualFold typ "elasticsearch" = true ->
  typ <> "elasticsearch" ->
  j.(Spec).(Storage).(EsIndexCleaner).(IndexCleanerEnabled) = None ->
  (normalize j).(Spec).(Storage).(Type_) = typ
  /\ (normalize j).(Spec).(Storage).(EsIndexCleaner).(IndexCleanerEnabled) = None.
Proof.
  cbv zeta. intros Hcat Hfold Hne Hunset.
  assert (Ht : (normalize j).(Spec).(Storage).(Type_) =
               j.(Spec).(Storage).(Type_)).
  { rewrite normalize_Type. apply resolveType_known.
    - intros He. by rewrite He in Hfold.
    - apply unknownStorage_false. by exists "elasticsearch". }
  split; [done|].
  rewrite index_cleaner_auto_enable by done.
  rewrite Ht. by rewrite bool_decide_eq_false_2.
Qed.
End Claims.

(** *** The derived UI keys in the pipeline *)

Section Tabs.
Context `{E : Externals}.

(** [disableDependenciesTab] on its own: what it leaves under
    [dependencies]. *)
Lemma disableDependenciesTab_key u t en :
  disableDependenciesTab u t en !! "dependencies" =
  if EqualFold t "memory" || bool_decide (en = Some true)
  then u !! "dependencies"
  else match u !! "dependencies" with
       | Some (VMap deps) =>
           match deps !! "menuEnabled" with
           | Some _ => Some (VMap deps)
           | None => Some (VMap (<["menuEnabled" := VBool false]> deps))
           end
       | Some x => Some x
       | None => Some (VMap (<["menuEnabled" := VBool false]> ∅))
       end.
Proof.
  unfold disableDependenciesTab. destruct (_ || _); [done|].
  destruct (u !! "dependencies") as [[| | | | |deps]|] eqn:Hu; try done.
  - destruct (deps !! "menuEnabled"); [done|]. by rewrite lookup_insert_eq.
  - rewrite lookup_empty. by rewrite lookup_insert_eq.
Qed.

Lemma normalize_dependencies_key j :
  uiTable (normalize j) !! "dependencies" =
  disableDependenciesTab (uiTable j) (normalize j).(Spec).(Storage).(Type_)
    (normalize j).(Spec).(Storage).(Dependencies).(DependenciesEnabled)
  !! "dependencies".
Proof.
  rewrite normalize_uiTable, normalize_Storage. unfold deriveUI.
  rewrite enableLogOut_other by done.
  cbn [beforeUI Storage].
  rewrite !disableDependenciesTab_key.
  by rewrite enableArchiveButton_other.
Qed.

(** C7, as the code has it.  For the nested key [dependencies.menuEnabled]:
    nothing is done when the key is there already or when the
    [dependencies] entry is not a table.  Otherwise the key is left unset
    when the resolved storage type is the in-memory backend or the
    dependencies flag of the resolved object is true, whether the user set
    it or [normalizeSparkDependencies] turned it on; in every remaining case
    [menuEnabled] is written as false into the table, next to what the table
    held. *)
Theorem dependencies_tab_derivation (j : Jaeger) :
  let u := uiTable j in
  let u' := uiTable (normalize j) in
  let typ' := (normalize j).(Spec).(Storage).(Type_) in
  let enabled' :=
    (normalize j).(Spec).(Storage).(Dependencies).(DependenciesEnabled) in
  (is_Some (menuEnabled u) -> u' !! "dependencies" = u !! "dependencies")
  /\ (forall x, u !! "dependencies" = Some x -> (forall m, x <> VMap m) ->
      u' !! "dependencies" = Some x)
  /\ (forall deps,
        menuEnabled u = None ->
        u !! "dependencies" = None /\ deps = ∅
        \/ u !! "dependencies" = Some (VMap deps) ->
        (EqualFold typ' "memory" = true \/ enabled' = Some true ->
         u' !! "dependencies" = u !! "dependencies" /\ menuEnabled u' = None)
        /\ (EqualFold typ' "memory" = false -> enabled' <> Some true ->
            u' !! "dependencies" =
              Some (VMap (<["menuEnabled" := VBool false]> deps))
            /\ menuEnabled u' = Some (VBool false))).
Proof.
  cbv zeta. unfold menuEnabled at 3 4.
  rewrite normalize_dependencies_key, disableDependenciesTab_key.
  set (typ' := Type_ _). set (enabled' := DependenciesEnabled _).
  set (u := uiTable j).
  split; [|split].
  - unfold menuEnabled. intros [v Hv]. destruct (_ || _); [done|].
    destruct (u !! "dependencies") as [[| | | | |deps]|]; try done.
    by rewrite Hv.
  - intros x Hx Hm. rewrite Hx. destruct (_ || _); [done|].
    destruct x; try done. by destruct (Hm m).
  - intros deps Hn Hd. split.
    + intros Hs.
      assert (EqualFold typ' "memory" || bool_decide (enabled' = Some true)
              = true) as ->.
      { destruct Hs as [-> | Hs]; [done|].
        rewrite bool_decide_eq_true_2 by done. apply orb_true_r. }
      split; [done|]. exact Hn.
    + intros Hm He. rewrite Hm, bool_decide_eq_false_2 by done. cbn [orb].
      unfold menuEnabled in Hn.
      destruct Hd as [[Hu ->]|Hu]; rewrite Hu in Hn |- *.
      * by rewrite lookup_insert_eq.
      * rewrite Hn. by rewrite lookup_insert_eq.
Qed.

Lemma normalize_menu_key j :
  uiTable (normalize j) !! "menu" =
  if bool_decide (j.(Spec).(Ingress).(IngressEnabled) = Some false)
     || negb (bool_decide ((normalize j).(Spec).(Ingress).(Security)
                           = IngressSecurityOAuthProxy))
  then uiTable j !! "menu"
  else match uiTable j !! "menu" with
       | Some v => Some v
       | None =>
           Some (VArray (Unmarshal (menuStr (GetString "documentation-url"))
                           [VNull; VNull]))
       end.
Proof.
  rewrite normalize_uiTable, normalize_Ingress. unfold deriveUI.
  rewrite enableLogOut_key.
  by rewrite disableDependenciesTab_other, enableArchiveButton_other.
Qed.

(** The [menu] key is written exactly when it is absent, ingress is not
    explicitly disabled and the resolved ingress security is OAuthProxy; for
    a documentation URL of plain bytes the value written is the menu of two
    entries. *)
Lemma menu_derivation (j : Jaeger) :
  let u := uiTable j in
  let u' := uiTable (normalize j) in
  let written :=
    u !! "menu" = None
    /\ j.(Spec).(Ingress).(IngressEnabled) <> Some false
    /\ (normalize j).(Spec).(Ingress).(Security) = IngressSecurityOAuthProxy in
  (written ->
   u' !! "menu" =
   Some (VArray (Unmarshal (menuStr (GetString "documentation-url"))
                   [VNull; VNull])))
  /\ (written -> allPlain (GetString "documentation-url") = true ->
      u' !! "menu" =
      Some (VArray [about (GetString "documentation-url"); logOut]))
  /\ (~ written -> u' !! "menu" = u !! "menu").
Proof.
  cbv zeta. rewrite normalize_menu_key.
  split; [|split].
  - intros (Hu & Hen & Hsec).
    rewrite bool_decide_eq_false_2, bool_decide_eq_true_2 by done.
    by rewrite Hu.
  - intros (Hu & Hen & Hsec) Hp.
    rewrite bool_decide_eq_false_2, bool_decide_eq_true_2 by done.
    by rewrite Hu, Unmarshal_menuStr.
  - intros Hw. repeat case_bool_decide; cbn [negb orb]; try done.
    destruct (uiTable j !! "menu") eqn:Hu; [done|].
    destruct Hw. by repeat split.
Qed.
End Tabs.

(** C7, as worded.  The job is supported on Cassandra, so an unset flag is
    turned on by [normalizeSparkDependencies] before the UI options are
    derived: the user enabled nothing, the storage is not the in-memory
    backend, nothing stands in the way of the derivation, and yet
    [menuEnabled] is not written. *)
Lemma dependencies_tab_auto_enabled_unset :
  let j := cassandraJaeger in
  let j' := normalize (E := sample kubernetes) j in
  uiTable j !! "dependencies" = None
  /\ EqualFold (E := sample kubernetes) j'.(Spec).(Storage).(Type_) "memory"
     = false
  /\ j.(Spec).(Storage).(Dependencies).(DependenciesEnabled) = None
  /\ menuEnabled (uiTable j') = None
  /\ menuEnabled (uiTable j') <> Some (VBool false).
Proof. vm_compute. repeat split; done. Qed.

(** C9, at a documentation URL with a double quote.  The URL is put into
    the template as it is, the text is not a JSON document any more, the
    error of [json.Unmarshal] is dropped, and the menu that is written is
    the array of two nils that [make] created. *)
Theorem menu_documentation_url_with_quote :
  let j' := normalize (E := sample quotedURL) productionES in
  uiTable productionES !! "menu" = None
  /\ j'.(Spec).(Ingress).(Security) = "oauth-proxy"
  /\ uiTable j' !! "menu" = Some (VArray [VNull; VNull]).
Proof. vm_compute. repeat split; done. Qed.

(** ** The statements at concrete inputs *)

(** In the sample environment an image name already resolved resolves to
    itself, and the provisioning test reads the storage type and options
    only. *)
Lemma sample_ImageName_idem cfg image param :
  ImageName (Externals := sample cfg) (ImageName (Externals := sample cfg) image param) param
  = ImageName (Externals := sample cfg) image param.
Proof. cbn. by repeat case_bool_decide. Qed.

Lemma sample_ShouldDeploy_frame cfg (s s' : JaegerStorageSpec) :
  s.(Type_) = s'.(Type_) -> s.(Options) = s'.(Options) ->
  ShouldDeployElasticsearch (Externals := sample cfg) s
  = ShouldDeployElasticsearch (Externals := sample cfg) s'.
Proof. cbn. by intros -> ->. Qed.

Lemma normalize_idempotent_witness :
  (forall image param,
     ImageName (Externals := sample openshift)
       (ImageName (Externals := sample openshift) image param) param
     = ImageName (Externals := sample openshift) image param)
  /\ (forall s s' : JaegerStorageSpec,
        s.(Type_) = s'.(Type_) -> s.(Options) = s'.(Options) ->
        ShouldDeployElasticsearch (Externals := sample openshift) s
        = ShouldDeployElasticsearch (Externals := sample openshift) s')
  /\ normalize (E := sample openshift)
       (normalize (E := sample openshift) productionES)
     = normalize (E := sample openshift) productionES.
Proof.
  split; [exact (sample_ImageName_idem openshift)|].
  split; [exact (sample_ShouldDeploy_frame openshift)|].
  exact (@normalize_idempotent (sample openshift)
           (sample_ImageName_idem openshift)
           (sample_ShouldDeploy_frame openshift) productionES).
Defined.

Lemma nondistributed_storage_allInOne_witness :
  let j := withStrategy "production" zeroJaeger in
  let j' := normalize (E := sample kubernetes) j in
  distributedStorage (E := sample kubernetes) j'.(Spec).(Storage).(Type_) = false
  /\ j'.(Spec).(Strategy) = "allInOne".
Proof.
  split; [vm_compute; reflexivity|].
  apply (@nondistributed_storage_allInOne (sample kubernetes)).
  vm_compute; reflexivity.
Defined.

Lemma index_cleaner_case_sensitive_witness :
  let j' := normalize (E := sample kubernetes) mixedCaseES in
  "elasticsearch" ∈ ValidTypes (Externals := sample kubernetes)
  /\ EqualFold (E := sample kubernetes) "Elasticsearch" "elasticsearch" = true
  /\ "Elasticsearch" <> "elasticsearch"
  /\ j'.(Spec).(Storage).(Type_) = "Elasticsearch"
  /\ j'.(Spec).(Storage).(EsIndexCleaner).(IndexCleanerEnabled) = None.
Proof.
  assert (Hin : "elasticsearch" ∈ ValidTypes (Externals := sample kubernetes))
    by (do 2 apply list_elem_of_further; apply list_elem_of_here).
  assert (Hne : "Elasticsearch" <> "elasticsearch") by discriminate.
  split; [exact Hin|]. split; [reflexivity|]. split; [exact Hne|].
  exact (@index_cleaner_case_sensitive (sample kubernetes) mixedCaseES
           Hin eq_refl Hne eq_refl).
Defined.

(** The scenarios of the spec. *)

(* A: nothing given, on Kubernetes *)
Example scenario_A :
  let j' := normalize (E := sample kubernetes) zeroJaeger in
  j'.(Name) = "my-jaeger"
  /\ j'.(Spec).(Storage).(Type_) = "memory"
  /\ j'.(Spec).(Strategy) = "allInOne"
  /\ j'.(Spec).(Ingress).(Security) = "none"
  /\ j'.(Spec).(UI).(UIOptions) = FreeFormNone.
Proof. vm_compute. repeat split; reflexivity. Qed.

(* B: Elasticsearch in production on OpenShift *)
Example scenario_B :
  let j' := normalize (E := sample openshift) productionES in
  j'.(Spec).(Strategy) = "production"
  /\ j'.(Spec).(Ingress).(Security) = "oauth-proxy"
  /\ uiTable j' !! "menu" =
     Some (VArray [about "https://www.jaegertracing.io/docs/latest"; logOut])
  /\ menuEnabled (uiTable j') = Some (VBool false).
Proof. vm_compute. repeat split; reflexivity. Qed.

(* C: the index cleaner on Elasticsearch *)
Example scenario_C :
  let j' := normalize (E := sample kubernetes) productionES in
  j'.(Spec).(Storage).(EsIndexCleaner) =
  {| IndexCleanerEnabled := Some true; IndexCleanerNumberOfDays := Some 7%Z;
     IndexCleanerSchedule := "55 23 * * *"; IndexCleanerImage := "" |}
  /\ j'.(Spec).(Storage).(Elasticsearch).(NodeCount) = 3%Z
  /\ j'.(Spec).(Storage).(Elasticsearch).(RedundancyPolicy) = "SingleRedundancy".
Proof. vm_compute. repeat split; reflexivity. Qed.

(* D: an archive storage turns the archive button on *)
Example scenario_D :
  let j := withStorage "cassandra" {[ "cassandra-archive.enabled" := "TRUE" ]}
             zeroJaeger in
  uiTable (normalize (E := sample kubernetes) j) !! "archiveEnabled" =
  Some (VBool true).
Proof. vm_compute. reflexivity. Qed.

(* what the user wrote in the UI options stays *)
Example user_settings_kept :
  let j' := normalize (E := sample openshift) (withUI userUI productionES) in
  uiTable j' = userUI.
Proof. vm_compute. reflexivity. Qed.

(* an injected key replaces the URL of the documentation link *)
Example menu_documentation_url_injection :
  Unmarshal (menuStr (q "x', 'url': 'y")) [VNull; VNull] = [about "y"; logOut].
Proof. vm_compute. reflexivity. Qed.

(* a storage type written with the Kelvin sign is found in the catalog *)
Example kelvin_kafka_kept :
  let j := withStrategy "streaming" (withStorage kelvinKafka ∅ zeroJaeger) in
  let j' := normalize (E := sample kubernetes) j in
  runes kelvinKafka = [8490; 97; 102; 107; 97]%N
  /\ unknownStorage (E := sample kubernetes) kelvinKafka = false
  /\ j'.(Spec).(Storage).(Type_) = kelvinKafka
  /\ j'.(Spec).(Strategy) = "streaming".
Proof. vm_compute. repeat split; reflexivity. Qed.

(* so is one written with the long s; the index cleaner stays unset *)
Example long_s_elasticsearch_kept :
  let j := withStorage longSElasticsearch ∅ zeroJaeger in
  let j' := normalize (E := sample kubernetes) j in
  EqualFold (E := sample kubernetes) longSElasticsearch "elasticsearch" = true
  /\ j'.(Spec).(Storage).(Type_) = longSElasticsearch
  /\ j'.(Spec).(Storage).(EsIndexCleaner).(IndexCleanerEnabled) = None.
Proof. vm_compute. repeat split; reflexivity. Qed.

(* a number past the range of float64 decodes to nil, the others stay *)
Example number_out_of_range :
  Unmarshal "[1e999, 1.7976931348623157e308, 1e-999]" [VNull; VNull]
  = [VNull; VNumber "1.7976931348623157e308"; VNumber "1e-999"].
Proof. vm_compute. reflexivity. Qed.

(** * More of the code *)

Section Topology.
Context `{E : Externals}.
Variable Secret : Type.
Variable Deprecated : string.

(** The object that [For] normalises: the deprecated alias rewritten. *)
Lemma For_eq (j : Jaeger) (secrets : list Secret) :
  let j0 := if bool_decide (j.(Spec).(Strategy) = Deprecated)
            then set_Spec (set_Strategy DeploymentStrategyAllInOne j.(Spec)) j
            else j in
  let j' := normalize j0 in
  For Secret Deprecated j secrets =
  if bool_decide (j'.(Spec).(Strategy) = DeploymentStrategyAllInOne)
  then newAllInOneStrategy j'
  else if bool_decide (j'.(Spec).(Strategy) = DeploymentStrategyStreaming)
  then newStreamingStrategy j'
  else newProductionStrategy j'
         {| ESJaeger := j'; CertScript := "./scripts/cert_generation.sh";
            Secrets := secrets |}.
Proof. reflexivity. Qed.

Lemma resolveStrategy_allInOne typ :
  resolveStrategy typ DeploymentStrategyAllInOne = DeploymentStrategyAllInOne.
Proof.
  unfold resolveStrategy.
  destruct (negb _ && negb (bool_decide (_ = DeploymentStrategyStreaming)));
    rewrite bool_decide_eq_true_2 by done; cbn [negb]; by rewrite andb_false_r.
Qed.

(** What a resolved strategy other than AllInOne tells about the request. *)
Lemma resolveStrategy_other typ strategy :
  resolveStrategy typ strategy <> DeploymentStrategyAllInOne ->
  resolveStrategy typ strategy = strategy
  /\ distributedStorage typ = true
  /\ (strategy = DeploymentStrategyProduction
      \/ strategy = DeploymentStrategyStreaming).
Proof.
  unfold resolveStrategy.
  destruct (distributedStorage typ); cbn [negb andb];
    repeat (case_bool_decide; cbn [negb andb] in *; subst; try congruence);
    intros; repeat split; auto.
Qed.

(** X1.  [For] builds the production strategy only for a request that
    says Production on a storage that can be distributed, and the streaming
    strategy only for a request that says Streaming on such a storage; the
    strategy holds the normalised object, and the production one the
    certificate script and the secrets that were passed. *)
Theorem For_topology_requested (j : Jaeger) (secrets : list Secret) :
  (forall jj es,
     For Secret Deprecated j secrets = newProductionStrategy jj es ->
     j.(Spec).(Strategy) = DeploymentStrategyProduction
     /\ distributedStorage jj.(Spec).(Storage).(Type_) = true
     /\ jj = normalize j
     /\ es = {| ESJaeger := jj; CertScript := "./scripts/cert_generation.sh";
                Secrets := secrets |})
  /\ (forall jj,
        For Secret Deprecated j secrets = newStreamingStrategy jj ->
        j.(Spec).(Strategy) = DeploymentStrategyStreaming
        /\ distributedStorage jj.(Spec).(Storage).(Type_) = true
        /\ jj = normalize j).
Proof.
  rewrite For_eq. cbv zeta.
  set (j0 := if bool_decide _ then _ else j).
  assert (Hj0 : j.(Spec).(Strategy) <> Deprecated -> j0 = j).
  { intros Hne. unfold j0. by rewrite bool_decide_eq_false_2. }
  assert (Hdep : j.(Spec).(Strategy) = Deprecated ->
                 (normalize j0).(Spec).(Strategy) = DeploymentStrategyAllInOne).
  { intros He. unfold j0. rewrite bool_decide_eq_true_2 by done.
    rewrite normalize_Strategy. cbn [Spec Strategy set_Spec set_Strategy].
    apply resolveStrategy_allInOne. }
  assert (Hres : (normalize j0).(Spec).(Strategy) <> DeploymentStrategyAllInOne ->
                 j0 = j
                 /\ (normalize j).(Spec).(Strategy) = j.(Spec).(Strategy)
                 /\ distributedStorage (normalize j).(Spec).(Storage).(Type_) = true).
  { intros Hne.
    assert (j0 = j) as Hj by (apply Hj0; intros He; by apply Hne, Hdep).
    rewrite Hj in Hne. split; [done|].
    rewrite normalize_Strategy in Hne |- *. rewrite normalize_Type.
    by destruct (resolveStrategy_other _ _ Hne) as (? & ? & _). }
  split.
  - intros jj es. case_bool_decide as Ha; [done|].
    case_bool_decide as Hs; [done|]. intros [= <- <-].
    destruct (Hres Ha) as (Hj & Hst & Hd). rewrite Hj in *.
    repeat split; try done.
    rewrite normalize_Strategy in Ha, Hs, Hst.
    destruct (resolveStrategy_other _ _ Ha) as (_ & _ & [Hp|Hp]); [done|].
    congruence.
  - intros jj. case_bool_decide as Ha; [done|].
    case_bool_decide as Hs; [|done]. intros [= <-].
    destruct (Hres Ha) as (Hj & Hst & Hd). rewrite Hj in *.
    repeat split; try done. congruence.
Qed.

Lemma resolveType_local typ :
  typ = "" \/ unknownStorage typ = true
  \/ EqualFold typ "memory" = true \/ EqualFold typ "badger" = true ->
  distributedStorage (resolveType typ) = false.
Proof.
  unfold resolveType, distributedStorage.
  assert (Hmem : forall b : bool,
            negb (EqualFold (if b then "memory" else "memory") "memory")
            && negb (EqualFold (if b then "memory" else "memory") "badger")
            = false) by (by intros []).
  intros [->|[Hu|[Hm|Hb]]].
  - rewrite bool_decide_eq_true_2 by done. apply Hmem.
  - case_bool_decide; [apply Hmem|]. by rewrite Hu.
  - case_bool_decide; [apply Hmem|].
    destruct (unknownStorage typ); [done|]. by rewrite Hm.
  - case_bool_decide; [apply Hmem|].
    destruct (unknownStorage typ); [done|]. rewrite Hb. apply andb_false_r.
Qed.

(** X2.  For a storage type that is empty, unknown to the catalog, the
    in-memory backend or badger (in any casing), [For] builds the
    all-in-one strategy, whatever strategy was requested. *)
Theorem For_local_storage_allInOne (j : Jaeger) (secrets : list Secret) :
  let typ := j.(Spec).(Storage).(Type_) in
  typ = "" \/ unknownStorage typ = true
  \/ EqualFold typ "memory" = true \/ EqualFold typ "badger" = true ->
  exists jj, For Secret Deprecated j secrets = newAllInOneStrategy jj
             /\ jj.(Spec).(Strategy) = DeploymentStrategyAllInOne.
Proof.
  cbv zeta. intros Ht. rewrite For_eq. cbv zeta.
  set (j0 := if bool_decide _ then _ else j).
  assert (Hs : (normalize j0).(Spec).(Strategy) = DeploymentStrategyAllInOne).
  { rewrite normalize_Strategy. apply resolveStrategy_nondistributed.
    apply resolveType_local. unfold j0. by case_bool_decide. }
  rewrite bool_decide_eq_true_2 by done. by exists (normalize j0).
Qed.

(** X3.  A request in the deprecated spelling of all-in-one gets the
    all-in-one strategy, on every storage. *)
Theorem For_deprecated_alias (j : Jaeger) (secrets : list Secret) :
  j.(Spec).(Strategy) = Deprecated ->
  exists jj, For Secret Deprecated j secrets = newAllInOneStrategy jj
             /\ jj.(Spec).(Strategy) = DeploymentStrategyAllInOne.
Proof.
  intros He. rewrite For_eq. cbv zeta.
  rewrite (bool_decide_eq_true_2 _ He).
  set (j0 := set_Spec _ j).
  assert (Hs : (normalize j0).(Spec).(Strategy) = DeploymentStrategyAllInOne).
  { rewrite normalize_Strategy. apply resolveStrategy_allInOne. }
  rewrite bool_decide_eq_true_2 by done. by exists (normalize j0).
Qed.

(** X4.  The resolved strategy is one of AllInOne, Production and
    Streaming, and a request for Production or Streaming stands when the
    resolved storage can be distributed. *)
Theorem normalize_strategy_range (j : Jaeger) :
  let strategy := j.(Spec).(Strategy) in
  let strategy' := (normalize j).(Spec).(Strategy) in
  (strategy' = DeploymentStrategyAllInOne
   \/ strategy' = DeploymentStrategyProduction
   \/ strategy' = DeploymentStrategyStreaming)
  /\ (distributedStorage (normalize j).(Spec).(Storage).(Type_) = true ->
      strategy = DeploymentStrategyProduction
      \/ strategy = DeploymentStrategyStreaming ->
      strategy' = strategy).
Proof.
  cbv zeta. rewrite normalize_Strategy, normalize_Type. unfold resolveStrategy.
  split.
  - destruct (distributedStorage _); cbn [negb andb];
      repeat (case_bool_decide; cbn [negb andb]); auto.
  - intros -> Hs. cbn [negb andb].
    destruct Hs as [Hs|Hs]; rewrite Hs;
      repeat (case_bool_decide; cbn [negb andb]); congruence.
Qed.
End Topology.

Section Resolution.
Context `{E : Externals}.

(** X5.  When the catalog has an entry for the in-memory backend, the
    storage type of a resolved object is always one that the catalog
    knows. *)
Theorem normalize_storage_type_known (j : Jaeger) :
  unknownStorage "memory" = false ->
  unknownStorage (normalize j).(Spec).(Storage).(Type_) = false.
Proof.
  intros Hm. rewrite normalize_Type. unfold resolveType.
  case_bool_decide; [by rewrite Hm|].
  by destruct (unknownStorage j.(Spec).(Storage).(Type_)) eqn:Hu.
Qed.

Lemma normalize_EsRollover j :
  (normalize j).(Spec).(Storage).(EsRollover) =
  normalizeRollover j.(Spec).(Storage).(EsRollover).
Proof. by rewrite normalize_Storage, resolveStorage_eq. Qed.

Lemma normalize_Options j :
  (normalize j).(Spec).(Storage).(Options) = j.(Spec).(Storage).(Options).
Proof. by rewrite normalize_Storage, resolveStorage_Options. Qed.

Lemma normalize_Name j : (normalize j).(Name) = resolveName j.(Name).
Proof. by rewrite normalize_stages. Qed.

(** X6.  [normalize] overrides nothing that is set: a name, an explicit
    flag (true or false) of the dependencies job and of the index cleaner,
    a schedule, the dependencies image and the retention days stay as
    given; the storage options and the ingress flag are never touched. *)
Theorem normalize_keeps_what_is_set (j : Jaeger) :
  let st := j.(Spec).(Storage) in
  let st' := (normalize j).(Spec).(Storage) in
  (j.(Name) <> "" -> (normalize j).(Name) = j.(Name))
  /\ st'.(Options) = st.(Options)
  /\ (normalize j).(Spec).(Ingress).(IngressEnabled)
     = j.(Spec).(Ingress).(IngressEnabled)
  /\ (forall b, st.(Dependencies).(DependenciesEnabled) = Some b ->
      st'.(Dependencies).(DependenciesEnabled) = Some b)
  /\ (st.(Dependencies).(DependenciesImage) <> "" ->
      st'.(Dependencies).(DependenciesImage) = st.(Dependencies).(DependenciesImage))
  /\ (st.(Dependencies).(DependenciesSchedule) <> "" ->
      st'.(Dependencies).(DependenciesSchedule)
      = st.(Dependencies).(DependenciesSchedule))
  /\ (forall b, st.(EsIndexCleaner).(IndexCleanerEnabled) = Some b ->
      st'.(EsIndexCleaner).(IndexCleanerEnabled) = Some b)
  /\ (forall n, st.(EsIndexCleaner).(IndexCleanerNumberOfDays) = Some n ->
      st'.(EsIndexCleaner).(IndexCleanerNumberOfDays) = Some n)
  /\ (st.(EsIndexCleaner).(IndexCleanerSchedule) <> "" ->
      st'.(EsIndexCleaner).(IndexCleanerSchedule)
      = st.(EsIndexCleaner).(IndexCleanerSchedule))
  /\ (st.(EsRollover).(RolloverSchedule) <> "" ->
      st'.(EsRollover).(RolloverSchedule) = st.(EsRollover).(RolloverSchedule)).
Proof.
  cbv zeta.
  rewrite normalize_Name, normalize_Options, normalize_Ingress,
    normalize_Dependencies, normalize_EsIndexCleaner, normalize_EsRollover.
  rewrite normalizeSparkDependencies_eq, normalizeIndexCleaner_eq,
    normalizeRollover_eq.
  cbn [Dependencies set_Dependencies set_Type DependenciesEnabled
       DependenciesImage DependenciesSchedule IndexCleanerEnabled
       IndexCleanerNumberOfDays IndexCleanerSchedule RolloverSchedule
       IngressEnabled set_Security].
  unfold resolveName, autoEnableDependencies.
  cbn [Dependencies set_Type DependenciesEnabled].
  repeat split.
  - intros Hn. by rewrite bool_decide_eq_false_2.
  - intros b Hb. rewrite Hb. rewrite (bool_decide_eq_false_2 (Some b = None)) by done.
    by rewrite andb_false_r.
  - intros Hn. by rewrite bool_decide_eq_false_2.
  - intros Hn. by rewrite bool_decide_eq_false_2.
  - intros b Hb. rewrite Hb. rewrite (bool_decide_eq_false_2 (Some b = None)) by done.
    by rewrite andb_false_r.
  - intros n Hn. rewrite Hn. by rewrite bool_decide_eq_false_2.
  - intros Hn. by rewrite bool_decide_eq_false_2.
  - intros Hn. by rewrite bool_decide_eq_false_2.
Qed.

(** X7.  A resolved object has no field left at the zero value that a
    stage owns: the name and the storage type are given, the three
    schedules are given, the retention days, the node count and the resource
    requirements are set. *)
Theorem normalize_leaves_nothing_unset (j : Jaeger) :
  let st' := (normalize j).(Spec).(Storage) in
  (normalize j).(Name) <> ""
  /\ st'.(Type_) <> ""
  /\ st'.(Dependencies).(DependenciesSchedule) <> ""
  /\ st'.(EsIndexCleaner).(IndexCleanerSchedule) <> ""
  /\ st'.(EsIndexCleaner).(IndexCleanerNumberOfDays) <> None
  /\ st'.(EsRollover).(RolloverSchedule) <> ""
  /\ st'.(Elasticsearch).(NodeCount) <> 0%Z
  /\ st'.(Elasticsearch).(Resources) <> None.
Proof.
  cbv zeta.
  rewrite normalize_Name, normalize_Dependencies, normalize_EsIndexCleaner,
    normalize_EsRollover, normalize_Elasticsearch, normalize_Type.
  rewrite normalizeSparkDependencies_eq, normalizeIndexCleaner_eq,
    normalizeRollover_eq, normalizeElasticsearch_eq.
  cbv zeta.
  cbn [Dependencies set_Dependencies DependenciesSchedule IndexCleanerSchedule
       IndexCleanerNumberOfDays RolloverSchedule NodeCount Resources set_Type].
  unfold resolveName, resolveType.
  repeat split.
  - by case_bool_decide.
  - case_bool_decide; destruct (unknownStorage _); done.
  - by case_bool_decide.
  - by case_bool_decide.
  - by case_bool_decide.
  - by case_bool_decide.
  - by case_bool_decide.
  - by destruct (Resources _).
Qed.

(** X8.  The defaults that fill an unset field: the daily schedule for the
    dependencies job and the index cleaner, the half-hourly one for the
    rollover, seven days of retention, and for the dependencies image the
    value configured under [jaeger-spark-dependencies-image]. *)
Theorem normalize_defaults (j : Jaeger) :
  let st := j.(Spec).(Storage) in
  let st' := (normalize j).(Spec).(Storage) in
  (st.(Dependencies).(DependenciesSchedule) = "" ->
   st'.(Dependencies).(DependenciesSchedule) = "55 23 * * *")
  /\ (st.(Dependencies).(DependenciesImage) = "" ->
      st'.(Dependencies).(DependenciesImage)
      = GetString "jaeger-spark-dependencies-image")
  /\ (st.(EsIndexCleaner).(IndexCleanerSchedule) = "" ->
      st'.(EsIndexCleaner).(IndexCleanerSchedule) = "55 23 * * *")
  /\ (st.(EsIndexCleaner).(IndexCleanerNumberOfDays) = None ->
      st'.(EsIndexCleaner).(IndexCleanerNumberOfDays) = Some 7%Z)
  /\ (st.(EsRollover).(RolloverSchedule) = "" ->
      st'.(EsRollover).(RolloverSchedule) = "*/30 * * * *")
  /\ st'.(EsIndexCleaner).(IndexCleanerImage)
     = ImageName st.(EsIndexCleaner).(IndexCleanerImage)
         "jaeger-es-index-cleaner-image"
  /\ st'.(EsRollover).(RolloverImage)
     = ImageName st.(EsRollover).(RolloverImage) "jaeger-es-rollover-image".
Proof.
  cbv zeta.
  rewrite normalize_Dependencies, normalize_EsIndexCleaner, normalize_EsRollover.
  rewrite normalizeSparkDependencies_eq, normalizeIndexCleaner_eq,
    normalizeRollover_eq.
  cbn [Dependencies set_Dependencies set_Type DependenciesImage
       DependenciesSchedule IndexCleanerSchedule IndexCleanerNumberOfDays
       IndexCleanerImage RolloverSchedule RolloverImage].
  repeat split; intros ->; by rewrite bool_decide_eq_true_2.
Qed.

(** X9.  An unset index-cleaner flag is turned on exactly when the
    resolved storage type is the string ["elasticsearch"]; on every other
    storage it stays unset. *)
Theorem index_cleaner_enabled_rule (j : Jaeger) :
  let typ' := (normalize j).(Spec).(Storage).(Type_) in
  let enabled' :=
    (normalize j).(Spec).(Storage).(EsIndexCleaner).(IndexCleanerEnabled) in
  j.(Spec).(Storage).(EsIndexCleaner).(IndexCleanerEnabled) = None ->
  (typ' = "elasticsearch" -> enabled' = Some true)
  /\ (typ' <> "elasticsearch" -> enabled' = None).
Proof.
  cbv zeta. intros Hn.
  rewrite normalize_EsIndexCleaner, normalizeIndexCleaner_eq.
  cbn [IndexCleanerEnabled]. rewrite Hn.
  split; intros Ht; by case_bool_decide.
Qed.
End Resolution.

Section Options.
Context `{E : Externals}.

Lemma not_derived k :
  k ∉ derivedKeys ->
  k <> "archiveEnabled" /\ k <> "dependencies" /\ k <> "menu".
Proof.
  unfold derivedKeys. intros Hk.
  repeat split; intros ->; apply Hk; repeat constructor.
Qed.

Lemma deriveUI_other spec u k :
  k ∉ derivedKeys -> deriveUI spec u !! k = u !! k.
Proof.
  intros (Ha & Hd & Hm)%not_derived. unfold deriveUI.
  by rewrite enableLogOut_other, disableDependenciesTab_other,
    enableArchiveButton_other.
Qed.

(** X10.  A UI option under any key other than the three that
    [normalizeUI] derives is the same before and after: kept with its value
    when the user gave it, absent when not. *)
Theorem normalize_ui_other_keys (j : Jaeger) (k : string) :
  k ∉ derivedKeys ->
  uiTable (normalize j) !! k = uiTable j !! k.
Proof. intros Hk. rewrite normalize_uiTable. by apply deriveUI_other. Qed.

(** X11.  When the user gave no [archiveEnabled], the key is written as
    true if one of the storage options [es-archive.enabled] and
    [cassandra-archive.enabled] is ["true"] in any casing, and is left out
    otherwise; it is never written as false. *)
Theorem normalize_archive_button (j : Jaeger) :
  let opts := j.(Spec).(Storage).(Options) in
  let archive k := EqualFold (index opts k) "true" in
  uiTable j !! "archiveEnabled" = None ->
  (archive "es-archive.enabled" = true
   \/ archive "cassandra-archive.enabled" = true ->
   uiTable (normalize j) !! "archiveEnabled" = Some (VBool true))
  /\ (archive "es-archive.enabled" = false ->
      archive "cassandra-archive.enabled" = false ->
      uiTable (normalize j) !! "archiveEnabled" = None).
Proof.
  cbv zeta. intros Hu. rewrite normalize_uiTable. unfold deriveUI.
  rewrite enableLogOut_other, disableDependenciesTab_other by done.
  rewrite enableArchiveButton_key, Hu.
  cbn [beforeUI Storage]. rewrite resolveStorage_Options.
  split.
  - intros [-> | ->]; [done|]. by rewrite orb_true_r.
  - by intros -> ->.
Qed.

(** X12.  UI options that do not decode to a table are not repaired: they
    stay as they are while no key is derived, and once a key is derived
    they are replaced by a table that holds derived keys only. *)
Theorem normalize_malformed_ui (j : Jaeger) (raw : string) :
  j.(Spec).(UI).(UIOptions) = FreeFormMalformed raw ->
  (normalize j).(Spec).(UI).(UIOptions) = FreeFormMalformed raw
  \/ exists t, (normalize j).(Spec).(UI).(UIOptions) = FreeFormTable t
               /\ t <> ∅
               /\ forall k, is_Some (t !! k) -> k ∈ derivedKeys.
Proof.
  intros Hraw. rewrite normalize_Spec, normalizeUI_eq. cbv zeta.
  cbn [beforeUI UI]. rewrite Hraw. cbn [loadUI IsEmpty GetMap negb].
  set (t := deriveUI (beforeUI j) ∅).
  case_bool_decide as Hsz.
  - right. exists t. cbn [UI UIOptions set_UI]. split; [done|]. split.
    + intros He. rewrite He, map_size_empty in Hsz. lia.
    + intros k [v Hv]. destruct (decide (k ∈ derivedKeys)) as [|Hk]; [done|].
      unfold t in Hv. rewrite deriveUI_other in Hv by done.
      by rewrite lookup_empty in Hv.
  - left. cbn [beforeUI UI UIOptions]. by rewrite Hraw.
Qed.

(** X13.  With the two security constants distinct, no [menu] is derived
    off OpenShift, for a user who set ingress security to the explicit
    none, or with ingress explicitly disabled: the key is as the user left
    it. *)
Theorem no_menu_without_oauth_proxy (j : Jaeger) :
  IngressSecurityNoneExplicit <> IngressSecurityOAuthProxy ->
  GetString "platform" <> FlagPlatformOpenShift
  \/ j.(Spec).(Ingress).(Security) = IngressSecurityNoneExplicit
  \/ j.(Spec).(Ingress).(IngressEnabled) = Some false ->
  uiTable (normalize j) !! "menu" = uiTable j !! "menu".
Proof.
  intros Hne Hc. rewrite normalize_menu_key, normalize_Ingress.
  cbn [Security set_Security]. unfold resolveSecurity.
  destruct Hc as [Hp|[Hs|Hi]].
  - rewrite (bool_decide_eq_false_2 _ Hp). cbn [andb].
    rewrite (bool_decide_eq_false_2 _ Hne). cbn [negb]. by rewrite orb_true_r.
  - rewrite (bool_decide_eq_true_2 _ Hs). cbn [negb]. rewrite andb_false_r.
    rewrite (bool_decide_eq_false_2 _ Hne). cbn [negb]. by rewrite orb_true_r.
  - by rewrite (bool_decide_eq_true_2 _ Hi).
Qed.

(** X14.  With ingress not disabled, security OAuthProxy, no [menu] yet
    and a documentation URL of printable ASCII without double quote and
    backslash, [enableLogOut] adds the menu of two entries, About with the
    Documentation link to that URL and Log Out to [/oauth/sign_in], and
    touches no other key. *)
Theorem enableLogOut_plain_url (uiOpts : gmap string value) (spec : JaegerSpec) :
  allPlain (GetString "documentation-url") = true ->
  spec.(Ingress).(IngressEnabled) <> Some false ->
  spec.(Ingress).(Security) = IngressSecurityOAuthProxy ->
  uiOpts !! "menu" = None ->
  enableLogOut uiOpts spec =
  <["menu" := VArray [about (GetString "documentation-url"); logOut]]> uiOpts.
Proof.
  intros Hp Hen Hsec Hm. unfold enableLogOut.
  rewrite (bool_decide_eq_false_2 _ Hen), (bool_decide_eq_true_2 _ Hsec).
  cbn [negb orb]. rewrite Hm. by rewrite Unmarshal_menuStr.
Qed.
End Options.

(** *** Case folding is an equivalence *)

Lemma foldRune_sym fold a b : foldRune fold a b = foldRune fold b a.
Proof.
  unfold foldRune. rewrite (N.eqb_sym b a).
  destruct (N.eqb_spec a b) as [|Hne]; [done|].
  destruct (N.ltb_spec b a), (N.ltb_spec a b); try lia; done.
Qed.

Lemma foldRunes_sym fold rs rt : foldRunes fold rs rt = foldRunes fold rt rs.
Proof.
  revert rt. induction rs as [|a rs IH]; intros [|b rt]; cbn; try done.
  by rewrite IH, foldRune_sym.
Qed.

Section Casing.
Context `{E : Externals}.

(** The folding orbits of the table partition the runes: a rune that folds
    to a second one, which folds to a third, folds to the third. *)
Hypothesis fold_trans : forall a b c,
  foldRune SimpleFold a b = true -> foldRune SimpleFold b c = true ->
  foldRune SimpleFold a c = true.

Lemma foldRunes_trans rs rt ru :
  foldRunes SimpleFold rs rt = true -> foldRunes SimpleFold rt ru = true ->
  foldRunes SimpleFold rs ru = true.
Proof.
  revert rt ru. induction rs as [|a rs IH]; intros [|b rt] [|c ru]; cbn; try done.
  intros [Hab Hst]%andb_prop [Hbc Htu]%andb_prop.
  rewrite (fold_trans a b c), (IH rt ru); done.
Qed.

Lemma EqualFold_same s t k :
  EqualFold s t = true -> EqualFold s k = EqualFold t k.
Proof.
  unfold EqualFold, equalFold. intros Hst.
  destruct (foldRunes SimpleFold (runes t) (runes k)) eqn:Htk.
  - by apply (foldRunes_trans _ (runes t)).
  - destruct (foldRunes SimpleFold (runes s) (runes k)) eqn:Hsk; [|done].
    rewrite <- Htk. symmetry. apply (foldRunes_trans _ (runes s)); [|done].
    by rewrite foldRunes_sym.
Qed.

(** X15.  How a storage type is written in upper and lower case does not
    matter to the catalog test, to the test for a distributed backend, nor
    to the strategy that is resolved: given a folding table whose orbits
    partition the runes, two objects whose storage types are equal under
    [EqualFold] and whose requested strategies are the same resolve to the
    same strategy. *)
Theorem storage_type_casing (j1 j2 : Jaeger) :
  let typ1 := j1.(Spec).(Storage).(Type_) in
  let typ2 := j2.(Spec).(Storage).(Type_) in
  EqualFold typ1 typ2 = true ->
  unknownStorage typ1 = unknownStorage typ2
  /\ distributedStorage typ1 = distributedStorage typ2
  /\ (j1.(Spec).(Strategy) = j2.(Spec).(Strategy) ->
      (normalize j1).(Spec).(Strategy) = (normalize j2).(Spec).(Strategy)).
Proof.
  cbv zeta. intros Hf.
  set (typ1 := j1.(Spec).(Storage).(Type_)) in *.
  set (typ2 := j2.(Spec).(Storage).(Type_)) in *.
  assert (Hu : unknownStorage typ1 = unknownStorage typ2).
  { unfold unknownStorage. induction ValidTypes as [|k ks IH]; [done|].
    cbn. by rewrite (EqualFold_same typ1 typ2 k), IH. }
  assert (Hd : forall a b, EqualFold a b = true ->
                 distributedStorage a = distributedStorage b).
  { intros a b Hab. unfold distributedStorage.
    by rewrite (EqualFold_same a b "memory"), (EqualFold_same a b "badger"). }
  split; [done|]. split; [by apply Hd|].
  intros Hs. rewrite !normalize_Strategy. fold typ1 typ2. rewrite Hs.
  unfold resolveStrategy. rewrite (Hd (resolveType typ1) (resolveType typ2)); [done|].
  unfold resolveType.
  destruct (decide (typ1 = "")) as [H1|H1].
  - assert (typ2 = "") as H2.
    { apply EqualFold_empty_r. rewrite <- Hf, H1.
      unfold EqualFold, equalFold. apply foldRunes_sym. }
    rewrite H1, H2. apply EqualFold_refl.
  - assert (typ2 <> "") as H2.
    { intros H2. rewrite H2 in Hf. by apply EqualFold_empty_r in Hf. }
    rewrite !bool_decide_eq_false_2 by done. rewrite Hu.
    destruct (unknownStorage typ2); [apply EqualFold_refl|done].
Qed.
End Casing.

(** *** The folding table of the sample environment *)

Ltac flat x :=
  lazymatch x with context [if _ then _ else _] => fail | _ => idtac end.

Ltac cases :=
  repeat (match goal with
    | |- context [(?x =? ?y)%N] =>
        flat x; flat y; destruct (N.eqb_spec x y); try lia
    | |- context [(?x <=? ?y)%N] =>
        flat x; flat y; destruct (N.leb_spec x y); try lia
    | |- context [(?x <? ?y)%N] =>
        flat x; flat y; destruct (N.ltb_spec x y); try lia
    end; cbn [andb orb negb]); try reflexivity; try lia.

Ltac ev :=
  repeat match goal with
    | |- context [sampleFold (Npos ?p)] =>
        let v := eval vm_compute in (sampleFold (Npos p)) in
        change (sampleFold (Npos p)) with v
    | |- context [sampleOrbit (Npos ?p)] =>
        let v := eval vm_compute in (sampleOrbit (Npos p)) in
        change (sampleOrbit (Npos p)) with v
    end.

Lemma sampleFold_upper r :
  (65 <= r <= 90)%N -> r <> 75%N -> r <> 83%N -> sampleFold r = (r + 32)%N.
Proof. intros. unfold sampleFold. cases. Qed.

Lemma sampleFold_lower r :
  (97 <= r <= 122)%N -> r <> 107%N -> r <> 115%N -> sampleFold r = (r - 32)%N.
Proof. intros. unfold sampleFold. cases. Qed.

Lemma sampleFold_other r :
  ~ (65 <= r <= 90)%N -> ~ (97 <= r <= 122)%N -> r <> 383%N -> r <> 8490%N ->
  sampleFold r = r.
Proof. intros. unfold sampleFold. cases. Qed.

(** The walk along an orbit of [sampleFold], from the smaller rune [lo] up
    to a rune [hi] outside ASCII, ends at [hi] exactly when the two are in
    one orbit. *)
Lemma orbit_sample n lo hi :
  (lo < hi)%N -> (128 <= hi)%N ->
  (orbit sampleFold (Datatypes.S (Datatypes.S (Datatypes.S n))) lo hi
     (sampleFold lo) =? hi)%N
  = (sampleOrbit lo =? sampleOrbit hi)%N.
Proof.
  intros Hlt Hhi.
  assert (Hh : sampleOrbit hi
               = if (hi =? 8490)%N then 107%N
                 else if (hi =? 383)%N then 115%N else hi)
    by (unfold sampleOrbit; cases).
  rewrite Hh. clear Hh. cbn [orbit].
  destruct (decide (lo = 75%N)) as [->|?]; [ev; cases|].
  destruct (decide (lo = 107%N)) as [->|?]; [ev; cases|].
  destruct (decide (lo = 83%N)) as [->|?]; [ev; cases|].
  destruct (decide (lo = 115%N)) as [->|?]; [ev; cases|].
  destruct (decide (lo = 383%N)) as [->|?]; [ev; cases|].
  destruct (decide (lo = 8490%N)) as [->|?]; [ev; cases|].
  destruct (decide (65 <= lo <= 90)%N) as [Hu|Hu].
  { rewrite (sampleFold_upper lo), (sampleFold_lower (lo + 32)) by lia.
    replace (lo + 32 - 32)%N with lo by lia. unfold sampleOrbit. cases. }
  destruct (decide (97 <= lo <= 122)%N) as [Hl|Hl].
  { rewrite (sampleFold_lower lo), (sampleFold_upper (lo - 32)) by lia.
    replace (lo - 32 + 32)%N with lo by lia. unfold sampleOrbit. cases. }
  rewrite (sampleFold_other lo) by done. unfold sampleOrbit. cases.
Qed.

Lemma foldRune_sample a b :
  foldRune sampleFold a b = (sampleOrbit a =? sampleOrbit b)%N.
Proof.
  unfold foldRune, RuneSelf. rewrite (N.eqb_sym b a).
  destruct (N.eqb_spec a b) as [->|Hne]; [by rewrite N.eqb_refl|].
  destruct (N.ltb_spec b a) as [Hlt|Hge].
  - destruct (N.ltb_spec a 128) as [Ha|Ha].
    + unfold sampleOrbit. cases.
    + destruct (N.to_nat a) as [|[|n]] eqn:Hn; try lia.
      rewrite (orbit_sample n b a), N.eqb_sym by lia. done.
  - destruct (N.ltb_spec b 128) as [Hb|Hb].
    + unfold sampleOrbit. cases.
    + destruct (N.to_nat b) as [|[|n]] eqn:Hn; try lia.
      by rewrite (orbit_sample n a b) by lia.
Qed.

(** The orbits of [sampleFold] partition the runes. *)
Lemma sampleFold_trans a b c :
  foldRune sampleFold a b = true -> foldRune sampleFold b c = true ->
  foldRune sampleFold a c = true.
Proof.
  rewrite !foldRune_sample. intros H1%N.eqb_eq H2%N.eqb_eq.
  apply N.eqb_eq. congruence.
Qed.

Section Untouched.
Context `{E : Externals}.

(** X16.  [normalizeUI] writes no empty table: when the user gave no UI
    option and nothing is derived (no archive storage, the dependencies tab
    supported, no OAuth proxy or ingress disabled), the UI options of the
    object are left exactly as they were. *)
Theorem normalize_ui_untouched (j : Jaeger) :
  let opts := j.(Spec).(Storage).(Options) in
  let st' := (normalize j).(Spec).(Storage) in
  let ingress' := (normalize j).(Spec).(Ingress) in
  uiTable j = ∅ ->
  EqualFold (index opts "es-archive.enabled") "true" = false ->
  EqualFold (index opts "cassandra-archive.enabled") "true" = false ->
  EqualFold st'.(Type_) "memory" = true
  \/ st'.(Dependencies).(DependenciesEnabled) = Some true ->
  ingress'.(Security) <> IngressSecurityOAuthProxy
  \/ ingress'.(IngressEnabled) = Some false ->
  (normalize j).(Spec).(UI).(UIOptions) = j.(Spec).(UI).(UIOptions).
Proof.
  cbv zeta. intros Hu Ha1 Ha2 Hd Hm.
  rewrite normalize_Storage, normalize_Ingress in *.
  rewrite normalize_Spec, normalizeUI_eq. cbv zeta.
  assert (Ht : deriveUI (beforeUI j) (loadUI (beforeUI j).(UI).(UIOptions)) = ∅).
  { change (loadUI (beforeUI j).(UI).(UIOptions)) with (uiTable j).
    rewrite Hu. unfold deriveUI. cbn [beforeUI Storage].
    rewrite resolveStorage_Options.
    rewrite enableArchiveButton_settled by (right; by rewrite Ha1, Ha2).
    rewrite disableDependenciesTab_settled.
    - apply enableLogOut_settled. left. cbn [Ingress].
      destruct Hm as [Hm|Hm].
      + rewrite (bool_decide_eq_false_2 _ Hm). apply orb_true_r.
      + by rewrite (bool_decide_eq_true_2 _ Hm).
    - left. destruct Hd as [-> | ->]; [done|].
      rewrite bool_decide_eq_true_2 by done. apply orb_true_r. }
  rewrite Ht. by rewrite bool_decide_eq_false_2 by (rewrite map_size_empty; lia).
Qed.
End Untouched.

(** ** The further statements at concrete inputs *)

Lemma For_local_storage_allInOne_witness :
  let j := withStrategy "production" (withStorage "Badger" ∅ zeroJaeger) in
  EqualFold (E := sample kubernetes) "Badger" "badger" = true
  /\ (exists jj,
        For (E := sample kubernetes) unit "all-in-one" j [tt]
        = newAllInOneStrategy jj
        /\ jj.(Spec).(Strategy) = "allInOne").
Proof.
  split; [reflexivity|].
  apply (@For_local_storage_allInOne (sample kubernetes) unit "all-in-one").
  right; right; right. reflexivity.
Defined.

Lemma For_deprecated_alias_witness :
  let j := withStrategy "all-in-one" productionES in
  j.(Spec).(Strategy) = "all-in-one"
  /\ (exists jj,
        For (E := sample kubernetes) unit "all-in-one" j []
        = newAllInOneStrategy jj
        /\ jj.(Spec).(Strategy) = "allInOne").
Proof.
  split; [reflexivity|].
  apply (@For_deprecated_alias (sample kubernetes) unit "all-in-one").
  reflexivity.
Defined.

Lemma normalize_storage_type_known_witness :
  let j := withStorage "nosuchdb" ∅ zeroJaeger in
  unknownStorage (E := sample kubernetes) "memory" = false
  /\ unknownStorage (E := sample kubernetes)
       (normalize (E := sample kubernetes) j).(Spec).(Storage).(Type_) = false.
Proof.
  split; [reflexivity|].
  apply (@normalize_storage_type_known (sample kubernetes)). reflexivity.
Defined.

Lemma index_cleaner_enabled_rule_witness :
  let j' := normalize (E := sample kubernetes) productionES in
  productionES.(Spec).(Storage).(EsIndexCleaner).(IndexCleanerEnabled) = None
  /\ (j'.(Spec).(Storage).(Type_) = "elasticsearch" ->
      j'.(Spec).(Storage).(EsIndexCleaner).(IndexCleanerEnabled) = Some true)
  /\ (j'.(Spec).(Storage).(Type_) <> "elasticsearch" ->
      j'.(Spec).(Storage).(EsIndexCleaner).(IndexCleanerEnabled) = None).
Proof.
  split; [reflexivity|].
  apply (@index_cleaner_enabled_rule (sample kubernetes) productionES).
  reflexivity.
Defined.

Lemma normalize_ui_other_keys_witness :
  let j := withUI (<["tracking" := VBool true]> userUI) productionES in
  ("tracking" ∉ derivedKeys)
  /\ uiTable (normalize (E := sample openshift) j) !! "tracking"
     = uiTable j !! "tracking".
Proof.
  assert (Hk : "tracking" ∉ derivedKeys) by (unfold derivedKeys; rewrite !elem_of_cons, elem_of_nil;
        intros [?|[?|[?|[]]]]; discriminate).
  split; [exact Hk|].
  exact (@normalize_ui_other_keys (sample openshift) _ "tracking" Hk).
Defined.

Lemma normalize_archive_button_witness :
  let j := withStorage "elasticsearch" {[ "es-archive.enabled" := "True" ]}
             zeroJaeger in
  uiTable j !! "archiveEnabled" = None
  /\ uiTable (normalize (E := sample kubernetes) j) !! "archiveEnabled"
     = Some (VBool true).
Proof.
  split; [reflexivity|].
  apply (@normalize_archive_button (sample kubernetes)); [reflexivity|].
  left. reflexivity.
Defined.

Lemma normalize_malformed_ui_witness :
  let j' := normalize (E := sample openshift) malformedUI in
  malformedUI.(Spec).(UI).(UIOptions) = FreeFormMalformed "["
  /\ (j'.(Spec).(UI).(UIOptions) = FreeFormMalformed "["
      \/ exists t, j'.(Spec).(UI).(UIOptions) = FreeFormTable t
                   /\ t <> ∅
                   /\ forall k, is_Some (t !! k) -> k ∈ derivedKeys).
Proof.
  split; [reflexivity|].
  apply (@normalize_malformed_ui (sample openshift) malformedUI "[").
  reflexivity.
Defined.

Lemma no_menu_without_oauth_proxy_witness :
  "none" <> "oauth-proxy"
  /\ index kubernetes "platform" <> "openshift"
  /\ uiTable (normalize (E := sample kubernetes) productionES) !! "menu"
     = uiTable productionES !! "menu".
Proof.
  assert (H1 : "none" <> "oauth-proxy") by discriminate.
  assert (H2 : index kubernetes "platform" <> "openshift") by discriminate.
  split; [exact H1|]. split; [exact H2|].
  exact (@no_menu_without_oauth_proxy (sample kubernetes) productionES H1
           (or_introl H2)).
Defined.

Lemma enableLogOut_plain_url_witness :
  let spec := (normalize (E := sample openshift) productionES).(Spec) in
  allPlain (index openshift "documentation-url") = true
  /\ spec.(Ingress).(IngressEnabled) <> Some false
  /\ spec.(Ingress).(Security) = "oauth-proxy"
  /\ enableLogOut (E := sample openshift) ∅ spec
     = <["menu" := VArray [about (index openshift "documentation-url");
                           logOut]]> ∅.
Proof.
  assert (H0 : allPlain (index openshift "documentation-url") = true)
    by (vm_compute; reflexivity).
  assert (H1 : (normalize (E := sample openshift) productionES)
                 .(Spec).(Ingress).(IngressEnabled) <> Some false)
    by (vm_compute; discriminate).
  assert (H2 : (normalize (E := sample openshift) productionES)
                 .(Spec).(Ingress).(Security) = "oauth-proxy")
    by (vm_compute; reflexivity).
  split; [exact H0|]. split; [exact H1|]. split; [exact H2|].
  exact (@enableLogOut_plain_url (sample openshift) ∅ _ H0 H1 H2 eq_refl).
Defined.

Lemma storage_type_casing_witness :
  let j1 := withStrategy "streaming" (withStorage kelvinKafka ∅ zeroJaeger) in
  let j2 := withStrategy "streaming" (withStorage "KAFKA" ∅ zeroJaeger) in
  (forall a b c,
     foldRune sampleFold a b = true -> foldRune sampleFold b c = true ->
     foldRune sampleFold a c = true)
  /\ EqualFold (E := sample kubernetes) kelvinKafka "KAFKA" = true
  /\ (normalize (E := sample kubernetes) j1).(Spec).(Strategy)
     = (normalize (E := sample kubernetes) j2).(Spec).(Strategy).
Proof.
  assert (Hf : EqualFold (E := sample kubernetes) kelvinKafka "KAFKA" = true)
    by (vm_compute; reflexivity).
  split; [exact sampleFold_trans|]. split; [exact Hf|].
  apply (@storage_type_casing (sample kubernetes) sampleFold_trans
           (withStrategy "streaming" (withStorage kelvinKafka ∅ zeroJaeger))
           (withStrategy "streaming" (withStorage "KAFKA" ∅ zeroJaeger)) Hf).
  reflexivity.
Defined.

Lemma normalize_ui_untouched_witness :
  let j := set_Spec (set_UI {| UIOptions := FreeFormMalformed "[" |}
                       zeroJaeger.(Spec)) zeroJaeger in
  uiTable j = ∅
  /\ (normalize (E := sample kubernetes) j).(Spec).(UI).(UIOptions)
     = FreeFormMalformed "[".
Proof.
  split; [reflexivity|].
  apply (@normalize_ui_untouched (sample kubernetes)); try reflexivity.
  - left. reflexivity.
  - left. discriminate.
Defined.
